(** * Going to Mars with Python using poliastro

    A shallow embedding of the notebook
    [docs/source/examples/Going to Mars with Python using poliastro.ipynb].

    The notebook is a fixed script of fifteen code cells.  Everything it
    computes is delegated to libraries (astropy, poliastro, plotly, IPython);
    the embedding therefore takes the libraries as a parameter ([Library]),
    threads an abstract interpreter state through every library call, and
    records every call, with its arguments and its outcome, in a trace.

    A run executes the code cells from top to bottom, each statement in
    turn, and ends at the first exception.  The theorems hold for every
    library and every initial interpreter state; a stand-in library
    ([Stub]) exhibits concrete runs. *)

From Stdlib Require Import List String Ascii ZArith Lia Bool Arith.
Import ListNotations.
Local Open Scope string_scope.
Local Open Scope list_scope.

(** ** Python values shared by every library *)

(** A Python exception: the name of its class and its message. *)
Record Exn : Type := mkExn { exn_type : string; exn_msg : string }.

Definition ValueError (msg : string) : Exn := mkExn "ValueError" msg.
Definition IndexError (msg : string) : Exn := mkExn "IndexError" msg.

(** The outcome of evaluating a Python expression. *)
Inductive Outcome (A : Type) : Type :=
| Returned (a : A)
| Raised (e : Exn).
Arguments Returned {A} a.
Arguments Raised {A} e.

Definition raised_exn {A : Type} (o : Outcome A) : option Exn :=
  match o with
  | Returned _ => None
  | Raised e => Some e
  end.

(** The units of [astropy.units] the notebook names: [u.h], [u.deg], [u.km]. *)
Inductive Unit : Type := u_h | u_deg | u_km.

(** [30 * u.deg]: an integer literal times a unit. *)
Definition Literal : Type := (Z * Unit)%type.

(** A call site: the [execution_count] of the code cell, the index in the
    cell's [source] array of the line on which the statement starts, and
    the index of the line on which the call itself is written. *)
Record Site : Type :=
  mkSite { site_cell : nat; site_stmt : nat; site_line : nat }.
Notation "c @ l" := (mkSite c l l) (at level 40, no associativity).

Definition site_eqb (a b : Site) : bool :=
  Nat.eqb (site_cell a) (site_cell b)
  && Nat.eqb (site_stmt a) (site_stmt b)
  && Nat.eqb (site_line a) (site_line b).

(** Source order of statements. *)
Definition site_leb (a b : Site) : bool :=
  Nat.ltb (site_cell a) (site_cell b)
  || (Nat.eqb (site_cell a) (site_cell b) && Nat.leb (site_stmt a) (site_stmt b)).

(** What a trace entry is, without its data. *)
Inductive Kind : Type :=
| KImport | KSetEphemeris | KTime | KTo | KTimeRange | KPosVel | KLambert
| KFromVectors | KFigureWidget | KOrbitPlotter3D | KSetAttractor | KTimeDelta
| KPropagate | KPlotTrajectory | KSetView | KSetTitle | KYouTubeVideo
| KDisplay.

(** ** The libraries the notebook calls

    [Ext W A] is a library call: it may read and change the interpreter
    state [W] (module globals, the cached ephemeris kernel, the figure
    behind a handle) and either returns a value or raises. *)
Definition Ext (W A : Type) : Type := W -> W * Outcome A.

Record Library : Type := mkLibrary {
  World : Type;
  (* astropy.time *)
  Time : Type;
  TimeDelta : Type;
  Quantity : Type;
  (* astropy.coordinates *)
  ScienceState : Type;
  Pos : Type;          (* one entry of a CartesianRepresentation of positions *)
  Vel : Type;          (* one entry of a CartesianRepresentation of velocities *)
  Vec : Type;          (* a three-component Quantity, as returned by [.xyz] *)
  (* poliastro *)
  GravParam : Type;
  Body : Type;
  Orbit : Type;
  Plotter : Type;
  (* plotly, IPython *)
  Figure : Type;
  Video : Type;
  (* attributes and operators: no call is made *)
  Sun : Body;
  Earth : Body;
  Mars : Body;
  body_k : Body -> GravParam;                    (* [Sun.k] *)
  xyz : Pos -> Vec;                              (* [.xyz] *)
  orbit_epoch : Orbit -> Time;                   (* [.epoch] *)
  time_sub : Time -> Time -> TimeDelta;          (* [Time - Time] *)
  (* calls *)
  py_import : string -> list string -> Ext World unit;
  solar_system_ephemeris_set : string -> Ext World ScienceState;
  time_Time : string -> string -> Ext World Time;
  to_unit : TimeDelta -> Unit -> Ext World Quantity;
  time_range : Time -> Time -> Z -> Ext World (list Time);
  get_body_barycentric_posvel :
    string -> list Time -> Ext World (list Pos * list Vel);
  iod_lambert :
    GravParam -> Vec -> Vec -> TimeDelta -> Ext World (list (Vec * Vec));
  Orbit_from_vectors : Body -> Vec -> Vec -> Time -> Ext World Orbit;
  FigureWidget : Ext World Figure;
  OrbitPlotter3D : Figure -> Ext World Plotter;
  set_attractor : Plotter -> Body -> Ext World unit;
  time_TimeDelta : list TimeDelta -> Ext World (list TimeDelta);
  propagate : Orbit -> list TimeDelta -> Ext World (list Pos);
  plot_trajectory :
    Plotter -> list Pos -> Body + string -> string -> Ext World unit;
  set_view : Plotter -> Literal -> Literal -> Literal -> Ext World unit;
  set_layout_title : Figure -> string -> Ext World unit;
  YouTubeVideo : string -> Ext World Video
}.

Section Notebook.

Variable L : Library.

(** What a cell displays as its [execute_result]. *)
Inductive Shown : Type :=
| ShScienceState (s : ScienceState L)
| ShQuantity (q : Quantity L)
| ShTimes (ts : list (Time L))
| ShPos (ps : list (Pos L))
| ShVel (vs : list (Vel L))
| ShFigure (f : Figure L)
| ShVideo (v : Video L).

(** One entry of the trace: a library call with its arguments and its
    outcome, or the display of a cell's value. *)
Inductive Event : Type :=
| EImport (module : string) (names : list string) (r : Outcome unit)
| ESetEphemeris (value : string) (r : Outcome (ScienceState L))
| ETime (val scale : string) (r : Outcome (Time L))
| ETo (q : TimeDelta L) (u : Unit) (r : Outcome (Quantity L))
| ETimeRange (start end_ : Time L) (periods : Z) (r : Outcome (list (Time L)))
| EPosVel (body : string) (times : list (Time L))
    (r : Outcome (list (Pos L) * list (Vel L)))
| ELambert (k : GravParam L) (r0 rf : Vec L) (tof : TimeDelta L)
    (r : Outcome (list (Vec L * Vec L)))
| EFromVectors (attractor : Body L) (r v : Vec L) (epoch : Time L)
    (res : Outcome (Orbit L))
| EFigureWidget (r : Outcome (Figure L))
| EOrbitPlotter3D (figure : Figure L) (r : Outcome (Plotter L))
| ESetAttractor (frame : Plotter L) (attractor : Body L) (r : Outcome unit)
| ETimeDelta (val : list (TimeDelta L)) (r : Outcome (list (TimeDelta L)))
| EPropagate (orbit : Orbit L) (time_of_flight : list (TimeDelta L))
    (r : Outcome (list (Pos L)))
| EPlotTrajectory (frame : Plotter L) (trajectory : list (Pos L))
    (label : Body L + string) (color : string) (r : Outcome unit)
| ESetView (frame : Plotter L) (a b distance : Literal) (r : Outcome unit)
| ESetTitle (figure : Figure L) (title : string) (r : Outcome unit)
| EYouTubeVideo (id : string) (r : Outcome (Video L))
| EDisplay (v : Shown).

(** The exception a trace entry ended with, if it raised. *)
Definition ev_raised (e : Event) : option Exn :=
  match e with
  | EImport _ _ r => raised_exn r
  | ESetEphemeris _ r => raised_exn r
  | ETime _ _ r => raised_exn r
  | ETo _ _ r => raised_exn r
  | ETimeRange _ _ _ r => raised_exn r
  | EPosVel _ _ r => raised_exn r
  | ELambert _ _ _ _ r => raised_exn r
  | EFromVectors _ _ _ _ r => raised_exn r
  | EFigureWidget r => raised_exn r
  | EOrbitPlotter3D _ r => raised_exn r
  | ESetAttractor _ _ r => raised_exn r
  | ETimeDelta _ r => raised_exn r
  | EPropagate _ _ r => raised_exn r
  | EPlotTrajectory _ _ _ _ r => raised_exn r
  | ESetView _ _ _ _ r => raised_exn r
  | ESetTitle _ _ r => raised_exn r
  | EYouTubeVideo _ r => raised_exn r
  | EDisplay _ => None
  end.

Definition kind_of (e : Event) : Kind :=
  match e with
  | EImport _ _ _ => KImport
  | ESetEphemeris _ _ => KSetEphemeris
  | ETime _ _ _ => KTime
  | ETo _ _ _ => KTo
  | ETimeRange _ _ _ _ => KTimeRange
  | EPosVel _ _ _ => KPosVel
  | ELambert _ _ _ _ _ => KLambert
  | EFromVectors _ _ _ _ _ => KFromVectors
  | EFigureWidget _ => KFigureWidget
  | EOrbitPlotter3D _ _ => KOrbitPlotter3D
  | ESetAttractor _ _ _ => KSetAttractor
  | ETimeDelta _ _ => KTimeDelta
  | EPropagate _ _ _ => KPropagate
  | EPlotTrajectory _ _ _ _ _ => KPlotTrajectory
  | ESetView _ _ _ _ _ => KSetView
  | ESetTitle _ _ _ => KSetTitle
  | EYouTubeVideo _ _ => KYouTubeVideo
  | EDisplay _ => KDisplay
  end.

Definition Trace : Type := list (Site * Event).

(** ** The monad of the script: interpreter state, trace, exceptions *)

Record St : Type := mkSt { world : World L; trace : Trace }.

Definition M (A : Type) : Type := St -> St * Outcome A.

Definition ret {A : Type} (a : A) : M A := fun st => (st, Returned a).

Definition raise {A : Type} (e : Exn) : M A := fun st => (st, Raised e).

(** Sequencing: an exception ends the script where it is raised; the
    notebook has no handler. *)
Definition bind {A B : Type} (m : M A) (f : A -> M B) : M B :=
  fun st =>
    match m st with
    | (st', Returned a) => f a st'
    | (st', Raised e) => (st', Raised e)
    end.

(** A library call made at site [s]: run it on the interpreter state and
    append it, with its outcome, to the trace. *)
Definition call {A : Type} (s : Site) (mk : Outcome A -> Event)
    (f : Ext (World L) A) : M A :=
  fun st =>
    match f (world st) with
    | (w', r) => (mkSt w' (trace st ++ [(s, mk r)]), r)
    end.

(** The value of the last expression of a cell is displayed. *)
Definition display (s : Site) (v : Shown) : M unit :=
  fun st => (mkSt (world st) (trace st ++ [(s, EDisplay v)]), Returned tt).

End Notebook.

Arguments ret {L A} a.
Arguments raise {L A} e.
Arguments bind {L A B} m f.
Arguments call {L A} s mk f.
Arguments display {L} s v.
Arguments kind_of {L} e.
Arguments ev_raised {L} e.
Arguments world {L} s.
Arguments trace {L} s.
Arguments mkSt {L} world trace.

Declare Scope py_scope.
Delimit Scope py_scope with py.
Notation "x <- m ;; k" := (bind m (fun x => k))
  (at level 61, m at next level, right associativity) : py_scope.
Notation "' p <- m ;; k" := (bind m (fun x => let p := x in k))
  (at level 61, p pattern, m at next level, right associativity) : py_scope.
Notation "m ;; k" := (bind m (fun _ => k))
  (at level 61, right associativity) : py_scope.

(** ** Python's own operations used by the script *)

(** [a[0]] on an array held as a list. *)
Definition index_first {L A} (a : list A) : M L A :=
  match a with
  | x :: _ => ret x
  | [] => raise (IndexError "index 0 is out of bounds for axis 0 with size 0")
  end.

(** [a[-1]]. *)
Definition index_last {L A} (a : list A) : M L A :=
  match rev a with
  | x :: _ => ret x
  | [] => raise (IndexError "index -1 is out of bounds for axis 0 with size 0")
  end.

(** [x, = it]: the target list has one entry, so the iterable must yield
    exactly one item. *)
Definition unpack_single {L A} (it : list A) : M L A :=
  match it with
  | [] => raise (ValueError "not enough values to unpack (expected 1, got 0)")
  | [x] => ret x
  | _ :: _ :: _ => raise (ValueError "too many values to unpack (expected 1)")
  end.

(** [a[:n]]: slicing never raises. *)
Definition slice_to {A} (n : nat) (a : list A) : list A := firstn n a.

(** ** The notebook, cell by cell

    Each definition is one code cell; its name carries the cell's
    [execution_count].  A cell takes the names it reads from earlier cells
    and returns the names it binds that a later cell reads. *)

Section Cells.

Variable L : Library.
Local Open Scope py_scope.

(** The initial data of In [3]. *)
Definition N : Z := 50.

(** The colours of In [13]. *)
Definition color_earth0 : string := "#3d4cd5".
Definition color_earthf : string := "#525fd5".
Definition color_mars0 : string := "#ec3941".
Definition color_marsf : string := "#ec1f28".
Definition color_sun : string := "#ffcc00".
Definition color_orbit : string := "#888888".
Definition color_trans : string := "#444444".

(** In [1]: the imports. *)
Definition cell1 : M L unit :=
  call (1 @ 0) (EImport L "numpy" []) (py_import L "numpy" []) ;;
  call (1 @ 2) (EImport L "astropy.units" []) (py_import L "astropy.units" []) ;;
  call (1 @ 3) (EImport L "astropy" ["time"]) (py_import L "astropy" ["time"]) ;;
  call (1 @ 5) (EImport L "poliastro" ["iod"]) (py_import L "poliastro" ["iod"]) ;;
  call (1 @ 6) (EImport L "poliastro.bodies" ["Sun"])
    (py_import L "poliastro.bodies" ["Sun"]) ;;
  call (1 @ 7) (EImport L "poliastro.twobody" ["Orbit"])
    (py_import L "poliastro.twobody" ["Orbit"]) ;;
  call (1 @ 8) (EImport L "poliastro.twobody.propagation" ["propagate"])
    (py_import L "poliastro.twobody.propagation" ["propagate"]) ;;
  call (1 @ 10) (EImport L "poliastro.util" ["time_range"])
    (py_import L "poliastro.util" ["time_range"]).

(** In [2]: select the JPL ephemeris. *)
Definition cell2 : M L unit :=
  call (2 @ 0)
    (EImport L "astropy.coordinates"
       ["solar_system_ephemeris"; "get_body_barycentric_posvel"])
    (py_import L "astropy.coordinates"
       ["solar_system_ephemeris"; "get_body_barycentric_posvel"]) ;;
  s <- call (2 @ 1) (ESetEphemeris L "jpl") (solar_system_ephemeris_set L "jpl") ;;
  display (2 @ 1) (ShScienceState L s).

(** In [3]: the two dates and the time of flight. *)
Definition cell3 : M L (Time L * Time L * TimeDelta L) :=
  date_launch <- call (3 @ 3) (ETime L "2011-11-26 15:02" "utc")
                   (time_Time L "2011-11-26 15:02" "utc") ;;
  date_arrival <- call (3 @ 4) (ETime L "2012-08-06 05:17" "utc")
                    (time_Time L "2012-08-06 05:17" "utc") ;;
  let tof := time_sub L date_arrival date_launch in
  q <- call (3 @ 7) (ETo L tof u_h) (to_unit L tof u_h) ;;
  display (3 @ 7) (ShQuantity L q) ;;
  ret (date_launch, date_arrival, tof).

(** In [4]: the vector of times. *)
Definition cell4 (date_launch date_arrival : Time L) : M L (list (Time L)) :=
  times_vector <- call (4 @ 0) (ETimeRange L date_launch date_arrival N)
                    (time_range L date_launch date_arrival N) ;;
  display (4 @ 1) (ShTimes L (slice_to 5 times_vector)) ;;
  ret times_vector.

(** In [5]. *)
Definition cell5 (times_vector : list (Time L))
    : M L (list (Pos L) * list (Vel L)) :=
  call (5 @ 0) (EPosVel L "earth" times_vector)
    (get_body_barycentric_posvel L "earth" times_vector).

(** In [6]. *)
Definition cell6 (rr_earth : list (Pos L)) : M L unit :=
  display (6 @ 0) (ShPos L (slice_to 3 rr_earth)).

(** In [7]. *)
Definition cell7 (vv_earth : list (Vel L)) : M L unit :=
  display (7 @ 0) (ShVel L (slice_to 3 vv_earth)).

(** In [8]. *)
Definition cell8 (times_vector : list (Time L))
    : M L (list (Pos L) * list (Vel L)) :=
  call (8 @ 0) (EPosVel L "mars" times_vector)
    (get_body_barycentric_posvel L "mars" times_vector).

(** In [9]. *)
Definition cell9 (rr_mars : list (Pos L)) : M L unit :=
  display (9 @ 0) (ShPos L (slice_to 3 rr_mars)).

(** In [10]. *)
Definition cell10 (vv_mars : list (Vel L)) : M L unit :=
  display (10 @ 0) (ShVel L (slice_to 3 vv_mars)).

(** In [11]: compute the transfer orbit. *)
Definition cell11 (rr_earth rr_mars : list (Pos L))
    (date_launch date_arrival : Time L) (tof : TimeDelta L)
    : M L (Orbit L * Orbit L) :=
  p0 <- index_first rr_earth ;;
  let r0 := xyz L p0 in
  pf <- index_last rr_mars ;;
  let rf := xyz L pf in
  sols <- call (11 @ 4) (ELambert L (body_k L (Sun L)) r0 rf tof)
            (iod_lambert L (body_k L (Sun L)) r0 rf tof) ;;
  ' (va, vb) <- unpack_single sols ;;
  ss0_trans <- call (11 @ 6) (EFromVectors L (Sun L) r0 va date_launch)
                 (Orbit_from_vectors L (Sun L) r0 va date_launch) ;;
  ssf_trans <- call (11 @ 7) (EFromVectors L (Sun L) rf vb date_arrival)
                 (Orbit_from_vectors L (Sun L) rf vb date_arrival) ;;
  ret (ss0_trans, ssf_trans).

(** In [11] with its last line, the assignment to [ssf_trans], deleted. *)
Definition cell11_without_ssf_trans (rr_earth rr_mars : list (Pos L))
    (date_launch : Time L) (tof : TimeDelta L) : M L (Orbit L) :=
  p0 <- index_first rr_earth ;;
  let r0 := xyz L p0 in
  pf <- index_last rr_mars ;;
  let rf := xyz L pf in
  sols <- call (11 @ 4) (ELambert L (body_k L (Sun L)) r0 rf tof)
            (iod_lambert L (body_k L (Sun L)) r0 rf tof) ;;
  ' (va, vb) <- unpack_single sols ;;
  ss0_trans <- call (11 @ 6) (EFromVectors L (Sun L) r0 va date_launch)
                 (Orbit_from_vectors L (Sun L) r0 va date_launch) ;;
  ret ss0_trans.

(** In [12]: the plotting imports. *)
Definition cell12 : M L unit :=
  call (12 @ 0) (EImport L "poliastro.plotting" ["OrbitPlotter3D"])
    (py_import L "poliastro.plotting" ["OrbitPlotter3D"]) ;;
  call (12 @ 1) (EImport L "poliastro.bodies" ["Earth"; "Mars"])
    (py_import L "poliastro.bodies" ["Earth"; "Mars"]) ;;
  call (12 @ 3) (EImport L "plotly.graph_objs" ["FigureWidget"])
    (py_import L "plotly.graph_objs" ["FigureWidget"]).

(** In [13]: the figure.  In the last [plot_trajectory] statement the
    arguments are evaluated first, innermost call first. *)
Definition cell13 (rr_earth rr_mars : list (Pos L))
    (times_vector : list (Time L)) (ss0_trans : Orbit L) : M L unit :=
  fig <- call (13 @ 9) (EFigureWidget L) (FigureWidget L) ;;
  frame <- call (13 @ 11) (EOrbitPlotter3D L fig) (OrbitPlotter3D L fig) ;;
  call (13 @ 13) (ESetAttractor L frame (Sun L)) (set_attractor L frame (Sun L)) ;;
  call (13 @ 15) (EPlotTrajectory L frame rr_earth (inl (Earth L)) color_earth0)
    (plot_trajectory L frame rr_earth (inl (Earth L)) color_earth0) ;;
  call (13 @ 16) (EPlotTrajectory L frame rr_mars (inl (Mars L)) color_marsf)
    (plot_trajectory L frame rr_mars (inl (Mars L)) color_marsf) ;;
  let offsets :=
    map (fun t => time_sub L t (orbit_epoch L ss0_trans)) times_vector in
  dts <- call (mkSite 13 18 19) (ETimeDelta L offsets)
           (time_TimeDelta L offsets) ;;
  traj <- call (mkSite 13 18 19) (EPropagate L ss0_trans dts)
            (propagate L ss0_trans dts) ;;
  call (13 @ 18) (EPlotTrajectory L frame traj (inr "MSL trajectory") color_trans)
    (plot_trajectory L frame traj (inr "MSL trajectory") color_trans) ;;
  call (13 @ 24) (ESetView L frame (30%Z, u_deg) (260%Z, u_deg) (3%Z, u_km))
    (set_view L frame (30%Z, u_deg) (260%Z, u_deg) (3%Z, u_km)) ;;
  call (13 @ 26) (ESetTitle L fig "MSL Mission: from Earth to Mars")
    (set_layout_title L fig "MSL Mission: from Earth to Mars") ;;
  display (13 @ 27) (ShFigure L fig).

(** In [14] holds one comment line and does nothing. *)
Definition cell14 : M L unit := ret tt.

(** In [15]. *)
Definition cell15 : M L unit :=
  call (15 @ 0) (EImport L "IPython.display" ["YouTubeVideo"])
    (py_import L "IPython.display" ["YouTubeVideo"]) ;;
  v <- call (15 @ 1) (EYouTubeVideo L "zSgiXGELjbc") (YouTubeVideo L "zSgiXGELjbc") ;;
  display (15 @ 1) (ShVideo L v).

(** Cells In [1] to In [10]. *)
Definition cells_1_10
    : M L (Time L * Time L * TimeDelta L * list (Time L)
         * list (Pos L) * list (Pos L)) :=
  cell1 ;;
  cell2 ;;
  ' (date_launch, date_arrival, tof) <- cell3 ;;
  times_vector <- cell4 date_launch date_arrival ;;
  ' (rr_earth, vv_earth) <- cell5 times_vector ;;
  cell6 rr_earth ;;
  cell7 vv_earth ;;
  ' (rr_mars, vv_mars) <- cell8 times_vector ;;
  cell9 rr_mars ;;
  cell10 vv_mars ;;
  ret (date_launch, date_arrival, tof, times_vector, rr_earth, rr_mars).

(** Cells In [12] to In [15]. *)
Definition cells_12_15 (rr_earth rr_mars : list (Pos L))
    (times_vector : list (Time L)) (ss0_trans : Orbit L) : M L unit :=
  cell12 ;;
  cell13 rr_earth rr_mars times_vector ss0_trans ;;
  cell14 ;;
  cell15.

(** The whole notebook, run from top to bottom. *)
Definition notebook : M L unit :=
  ' (date_launch, date_arrival, tof, times_vector, rr_earth, rr_mars)
      <- cells_1_10 ;;
  ' (ss0_trans, ssf_trans)
      <- cell11 rr_earth rr_mars date_launch date_arrival tof ;;
  cells_12_15 rr_earth rr_mars times_vector ss0_trans.

(** The notebook with the assignment to [ssf_trans] deleted from In [11]. *)
Definition notebook_without_ssf_trans : M L unit :=
  ' (date_launch, date_arrival, tof, times_vector, rr_earth, rr_mars)
      <- cells_1_10 ;;
  ss0_trans <- cell11_without_ssf_trans rr_earth rr_mars date_launch tof ;;
  cells_12_15 rr_earth rr_mars times_vector ss0_trans.

(** A run starts with an empty trace. *)
Definition run {A} (m : M L A) (w : World L) : St L * Outcome A :=
  m (mkSt w []).

End Cells.

Arguments run {L A} m w.

(** ** The civil calendar behind the two date strings

    [time.Time] belongs to astropy and is not part of the notebook.  The
    calendar below reads the two ISO strings of In [3] as UTC civil dates. *)
Module Calendar.

Local Open Scope Z_scope.

Record Civil : Type :=
  mkCivil { year : Z; month : Z; day : Z; hour : Z; minute : Z }.

Definition digit (c : ascii) : option Z :=
  let n := Z.of_nat (nat_of_ascii c) in
  if (48 <=? n) && (n <=? 57) then Some (n - 48) else None.

(** The decimal number written by all of [s]. *)
Fixpoint number_from (acc : Z) (s : string) : option Z :=
  match s with
  | EmptyString => Some acc
  | String c s' =>
      match digit c with
      | Some d => number_from (10 * acc + d) s'
      | None => None
      end
  end.

Definition number (s : string) : option Z :=
  match s with
  | EmptyString => None
  | _ => number_from 0 s
  end.

Definition is_leap_year (y : Z) : bool :=
  ((y mod 4 =? 0) && negb (y mod 100 =? 0)) || (y mod 400 =? 0).

Definition days_in_month (y m : Z) : Z :=
  if m =? 2 then (if is_leap_year y then 29 else 28)
  else if (m =? 4) || (m =? 6) || (m =? 9) || (m =? 11) then 30
  else 31.

(** Days from 0001-01-01 to the first day of year [y]. *)
Definition days_before_year (y : Z) : Z :=
  365 * (y - 1) + (y - 1) / 4 - (y - 1) / 100 + (y - 1) / 400.

(** Days from the first day of year [y] to the first day of month [m]. *)
Definition days_before_month (y m : Z) : Z :=
  fold_right Z.add 0
    (map (days_in_month y) (map Z.of_nat (seq 1 (Z.to_nat (m - 1))))).

Definition day_number (y m d : Z) : Z :=
  days_before_year y + days_before_month y m + (d - 1).

Definition valid (c : Civil) : bool :=
  (1 <=? year c) && (1 <=? month c) && (month c <=? 12)
  && (1 <=? day c) && (day c <=? days_in_month (year c) (month c))
  && (0 <=? hour c) && (hour c <=? 23)
  && (0 <=? minute c) && (minute c <=? 59).

(** Reads [YYYY-MM-DD HH:MM]. *)
Definition parse (s : string) : option Civil :=
  match number (substring 0 4 s), number (substring 5 2 s),
        number (substring 8 2 s), number (substring 11 2 s),
        number (substring 14 2 s) with
  | Some y, Some m, Some d, Some h, Some mi =>
      let c := mkCivil y m d h mi in
      if (String.length s =? 16)%nat
         && String.eqb (substring 4 1 s) "-"
         && String.eqb (substring 7 1 s) "-"
         && String.eqb (substring 10 1 s) " "
         && String.eqb (substring 13 1 s) ":"
         && valid c
      then Some c else None
  | _, _, _, _, _ => None
  end.

(** Minutes of UTC wall-clock time since 0001-01-01 00:00. *)
Definition wall_minutes (c : Civil) : Z :=
  (day_number (year c) (month c) (day c) * 24 + hour c) * 60 + minute c.

(** The UTC days that ended with an inserted leap second. *)
Definition leap_second_days : list (Z * Z * Z) :=
  [ (1972, 6, 30); (1972, 12, 31); (1973, 12, 31); (1974, 12, 31);
    (1975, 12, 31); (1976, 12, 31); (1977, 12, 31); (1978, 12, 31);
    (1979, 12, 31); (1981, 6, 30); (1982, 6, 30); (1983, 6, 30);
    (1985, 6, 30); (1987, 12, 31); (1989, 12, 31); (1990, 12, 31);
    (1992, 6, 30); (1993, 6, 30); (1994, 6, 30); (1995, 12, 31);
    (1997, 6, 30); (1998, 12, 31); (2005, 12, 31); (2008, 12, 31);
    (2012, 6, 30); (2015, 6, 30); (2016, 12, 31) ].

(** Leap seconds inserted before the civil instant [c]. *)
Definition leap_seconds_before (c : Civil) : Z :=
  Z.of_nat
    (List.length
       (filter
          (fun '(y, m, d) =>
             day_number y m d <? day_number (year c) (month c) (day c))
          leap_second_days)).

(** Seconds on a uniform scale: wall-clock seconds plus the leap seconds
    inserted so far. *)
Definition uniform_seconds (c : Civil) : Z :=
  wall_minutes c * 60 + leap_seconds_before c.

(** The wall-clock span between two date strings, in minutes. *)
Definition wall_span_minutes (from to : string) : option Z :=
  match parse from, parse to with
  | Some a, Some b => Some (wall_minutes b - wall_minutes a)
  | _, _ => None
  end.

(** The elapsed time between two date strings, in seconds. *)
Definition elapsed_seconds (from to : string) : option Z :=
  match parse from, parse to with
  | Some a, Some b => Some (uniform_seconds b - uniform_seconds a)
  | _, _ => None
  end.

(** The leap-second days from the day of [a] up to, not including, the day
    of [b]. *)
Definition leap_second_days_between (a b : Civil) : list (Z * Z * Z) :=
  filter
    (fun '(y, m, d) =>
       (day_number (year a) (month a) (day a) <=? day_number y m d)
       && (day_number y m d <? day_number (year b) (month b) (day b)))
    leap_second_days.

(** [num / den] rounded to [digits] decimals equals [shown / 10^digits]. *)
Definition rounds_to (num den : Z) (digits : Z) (shown : Z) : Prop :=
  2 * Z.abs (shown * den - num * 10 ^ digits) <= den.

End Calendar.

(** ** A stand-in for the libraries *)

(** Modelled from the spec: the external collaborators of its section 2
    (ephemeris lookup, Lambert transfer solver, Kepler propagator, plotting)
    and astropy's times, none of which is under [src/].  The stand-in keeps
    the shape of their interfaces and nothing of their numerics: bodies move
    on straight lines, the solver answers with the chord between the two
    positions, the propagator moves along the initial velocity.  It serves
    to exhibit runs of the notebook; [Faults] selects how the collaborators
    misbehave. *)
Module Stub.

Local Open Scope Z_scope.

Record Faults : Type := mkFaults {
  lambert_pairs : nat;         (* how many velocity pairs the solver yields *)
  ephemeris_missing : bool     (* the ephemeris kernel cannot be fetched *)
}.

Definition no_faults : Faults := mkFaults 1 false.

Definition V3 : Type := (Z * Z * Z)%type.

Record SOrbit : Type :=
  mkSOrbit { o_attractor : string; o_r : V3; o_v : V3; o_epoch : Z }.

(** The interpreter state: imported modules, the selected ephemeris, and the
    one figure with its plotted trajectories and title. *)
Record SWorld : Type := mkSWorld {
  modules : list string;
  ephemeris : string;
  plotted : list (string * list V3);
  title : string
}.

Definition initial : SWorld := mkSWorld [] "builtin" [] "".

Definition pure {A} (a : A) : Ext SWorld A := fun w => (w, Returned a).
Definition fail {A} (e : Exn) : Ext SWorld A := fun w => (w, Raised e).

Definition s_import (m : string) (_ : list string) : Ext SWorld unit :=
  fun w => (mkSWorld (m :: modules w) (ephemeris w) (plotted w) (title w),
            Returned tt).

Definition s_set_ephemeris (v : string) : Ext SWorld string :=
  fun w => (mkSWorld (modules w) v (plotted w) (title w), Returned v).

Definition s_Time (val scale : string) : Ext SWorld Z :=
  match Calendar.parse val with
  | Some c =>
      if String.eqb scale "utc" then pure (Calendar.uniform_seconds c)
      else fail (ValueError "scale not supported")
  | None => fail (ValueError "time string does not match a known format")
  end.

Definition s_to (q : Z) (u : Unit) : Ext SWorld (Z * Z) :=
  match u with
  | u_h => pure (q, 3600)
  | _ => fail (mkExn "UnitConversionError" "not a unit of time")
  end.

(** [periods] evenly spaced instants from [start] to [end_]. *)
Definition s_time_range (start end_ : Z) (periods : Z) : Ext SWorld (list Z) :=
  if periods <? 2 then fail (ValueError "periods must be at least 2")
  else pure (map (fun i => start + (end_ - start) * Z.of_nat i / (periods - 1))
               (seq 0 (Z.to_nat periods))).

Definition s_position (body : string) (t : Z) : V3 :=
  if String.eqb body "earth" then (1496, t / 3600, 0) else (-2279, t / 3600, 1).

Definition s_velocity (body : string) (t : Z) : V3 := (0, 1, 0).

Definition s_posvel (f : Faults) (body : string) (times : list Z)
    : Ext SWorld (list V3 * list V3) :=
  fun w =>
    if ephemeris_missing f
    then (w, Raised (mkExn "URLError" "the ephemeris kernel cannot be fetched"))
    else if String.eqb (ephemeris w) "jpl"
    then (w, Returned (map (s_position body) times, map (s_velocity body) times))
    else (w, Raised (mkExn "KeyError" "body not in the built-in ephemeris")).

Definition chord (r0 rf : V3) : V3 :=
  match r0, rf with
  | (x0, y0, z0), (x1, y1, z1) => (x1 - x0, y1 - y0, z1 - z0)
  end.

Definition s_lambert (f : Faults) (k : Z) (r0 rf : V3) (tof : Z)
    : Ext SWorld (list (V3 * V3)) :=
  pure (repeat (chord r0 rf, chord r0 rf) (lambert_pairs f)).

Definition s_from_vectors (attractor : string) (r v : V3) (epoch : Z)
    : Ext SWorld SOrbit :=
  pure (mkSOrbit attractor r v epoch).

Definition advance (o : SOrbit) (dt : Z) : V3 :=
  match o_r o, o_v o with
  | (x, y, z), (vx, vy, vz) => (x + vx * dt, y + vy * dt, z + vz * dt)
  end.

Definition s_propagate (o : SOrbit) (dts : list Z) : Ext SWorld (list V3) :=
  pure (map (advance o) dts).

Definition label_text (l : string + string) : string :=
  match l with inl b => b | inr s => s end.

Definition s_plot (_ : unit) (traj : list V3) (l : string + string)
    (color : string) : Ext SWorld unit :=
  fun w => (mkSWorld (modules w) (ephemeris w)
              (plotted w ++ [(label_text l, traj)]) (title w), Returned tt).

Definition s_set_title (_ : unit) (t : string) : Ext SWorld unit :=
  fun w => (mkSWorld (modules w) (ephemeris w) (plotted w) t, Returned tt).

Definition lib (f : Faults) : Library :=
  {| World := SWorld;
     Time := Z; TimeDelta := Z; Quantity := (Z * Z)%type;
     ScienceState := string;
     Pos := V3; Vel := V3; Vec := V3;
     GravParam := Z; Body := string; Orbit := SOrbit;
     Plotter := unit; Figure := unit; Video := string;
     Sun := "Sun"%string; Earth := "Earth"%string; Mars := "Mars"%string;
     body_k := fun _ => 132712440018;
     xyz := fun p => p;
     orbit_epoch := o_epoch;
     time_sub := fun a b => a - b;
     py_import := s_import;
     solar_system_ephemeris_set := s_set_ephemeris;
     time_Time := s_Time;
     to_unit := s_to;
     time_range := s_time_range;
     get_body_barycentric_posvel := s_posvel f;
     iod_lambert := s_lambert f;
     Orbit_from_vectors := s_from_vectors;
     FigureWidget := pure tt;
     OrbitPlotter3D := fun _ => pure tt;
     set_attractor := fun _ _ => pure tt;
     time_TimeDelta := fun dts => pure dts;
     propagate := s_propagate;
     plot_trajectory := s_plot;
     set_view := fun _ _ _ _ => pure tt;
     set_layout_title := s_set_title;
     YouTubeVideo := fun id => pure id |}.

(** The libraries behaving well; the solver yielding two pairs; the
    ephemeris kernel out of reach. *)
Definition nominal : Library := lib no_faults.
Definition two_pairs : Library := lib (mkFaults 2 false).
Definition offline : Library := lib (mkFaults 1 true).

(** The arguments of the solver call in a run on the stand-in. *)
Definition sun_k : Z := 132712440018.
Definition departure_r : V3 := (1496, 17627199, 0).
Definition arrival_r : V3 := (-2279, 17633285, 1).
Definition flight_seconds : Z := 21910501.
Definition chord_v : V3 := (-3775, 6086, 1).

End Stub.

(** ** The notebook file

    The [.ipynb] file is a JSON document written one scalar per line.  The
    tree below has its structure, key by key; of the scalars it keeps the
    cell types, the execution counts and the source lines of the code cells
    (without the newline escape that ends a line), which is the text the
    definitions above were translated from.  Prose, outputs and metadata
    values are [JOpaque]. *)
Module Document.

#[local] Unset Elimination Schemes.
Inductive json : Type :=
| JOpaque
| JStr (s : string)
| JNum (n : nat)
| JArr (items : list json)
| JObj (fields : list (string * json)).
#[local] Set Elimination Schemes.

(** The double quote, and concatenation, to write lines that hold quotes. *)
Definition q : string := String (ascii_of_nat 34) EmptyString.
Definition cat (parts : list string) : string := String.concat "" parts.

Definition notebook_json : json :=
  JObj [
    ("cells", JArr [
      JObj [
        ("cell_type", JStr "markdown");
        ("metadata", JObj []);
        ("source", JArr (repeat JOpaque 9)) ];
      JObj [
        ("cell_type", JStr "markdown");
        ("metadata", JObj []);
        ("source", JArr (repeat JOpaque 1)) ];
      JObj [
        ("cell_type", JStr "code");
        ("execution_count", JNum 1);
        ("metadata", JObj []);
        ("outputs", JArr []);
        ("source", JArr [
          JStr "import numpy as np";
          JStr "";
          JStr "import astropy.units as u";
          JStr "from astropy import time";
          JStr "";
          JStr "from poliastro import iod";
          JStr "from poliastro.bodies import Sun";
          JStr "from poliastro.twobody import Orbit";
          JStr "from poliastro.twobody.propagation import propagate";
          JStr "";
          JStr "from poliastro.util import time_range" ]) ];
      JObj [
        ("cell_type", JStr "markdown");
        ("metadata", JObj []);
        ("source", JArr (repeat JOpaque 1)) ];
      JObj [
        ("cell_type", JStr "code");
        ("execution_count", JNum 2);
        ("metadata", JObj []);
        ("outputs", JArr [
          JObj [
            ("data", JObj [
              ("text/plain", JArr (repeat JOpaque 1)) ]);
            ("execution_count", JOpaque);
            ("metadata", JObj []);
            ("output_type", JOpaque) ] ]);
        ("source", JArr [
          JStr "from astropy.coordinates import solar_system_ephemeris, get_body_barycentric_posvel";
          JStr (cat ["solar_system_ephemeris.set("; q; "jpl"; q; ")"]) ]) ];
      JObj [
        ("cell_type", JStr "markdown");
        ("metadata", JObj []);
        ("source", JArr (repeat JOpaque 1)) ];
      JObj [
        ("cell_type", JStr "code");
        ("execution_count", JNum 3);
        ("metadata", JObj []);
        ("outputs", JArr [
          JObj [
            ("data", JObj [
              ("text/latex", JArr (repeat JOpaque 1));
              ("text/plain", JArr (repeat JOpaque 1)) ]);
            ("execution_count", JOpaque);
            ("metadata", JObj []);
            ("output_type", JOpaque) ] ]);
        ("source", JArr [
          JStr "# Initial data";
          JStr "N = 50";
          JStr "";
          JStr (cat ["date_launch = time.Time("; q; "2011-11-26 15:02"; q; ", scale="; q; "utc"; q; ")"]);
          JStr (cat ["date_arrival = time.Time("; q; "2012-08-06 05:17"; q; ", scale="; q; "utc"; q; ")"]);
          JStr "tof = date_arrival - date_launch";
          JStr "";
          JStr "tof.to(u.h)" ]) ];
      JObj [
        ("cell_type", JStr "markdown");
        ("metadata", JObj []);
        ("source", JArr (repeat JOpaque 1)) ];
      JObj [
        ("cell_type", JStr "code");
        ("execution_count", JNum 4);
        ("metadata", JObj []);
        ("outputs", JArr [
          JObj [
            ("data", JObj [
              ("text/plain", JArr (repeat JOpaque 3)) ]);
            ("execution_count", JOpaque);
            ("metadata", JObj []);
            ("output_type", JOpaque) ] ]);
        ("source", JArr [
          JStr "times_vector = time_range(date_launch, end=date_arrival, periods=N)";
          JStr "times_vector[:5]" ]) ];
      JObj [
        ("cell_type", JStr "code");
        ("execution_count", JNum 5);
        ("metadata", JObj []);
        ("outputs", JArr []);
        ("source", JArr [
          JStr (cat ["rr_earth, vv_earth = get_body_barycentric_posvel("; q; "earth"; q; ", times_vector)"]) ]) ];
      JObj [
        ("cell_type", JStr "code");
        ("execution_count", JNum 6);
        ("metadata", JObj []);
        ("outputs", JArr [
          JObj [
            ("data", JObj [
              ("text/plain", JArr (repeat JOpaque 4)) ]);
            ("execution_count", JOpaque);
            ("metadata", JObj []);
            ("output_type", JOpaque) ] ]);
        ("source", JArr [
          JStr "rr_earth[:3]" ]) ];
      JObj [
        ("cell_type", JStr "code");
        ("execution_count", JNum 7);
        ("metadata", JObj []);
        ("outputs", JArr [
          JObj [
            ("data", JObj [
              ("text/plain", JArr (repeat JOpaque 4)) ]);
            ("execution_count", JOpaque);
            ("metadata", JObj []);
            ("output_type", JOpaque) ] ]);
        ("source", JArr [
          JStr "vv_earth[:3]" ]) ];
      JObj [
        ("cell_type", JStr "code");
        ("execution_count", JNum 8);
        ("metadata", JObj []);
        ("outputs", JArr []);
        ("source", JArr [
          JStr (cat ["rr_mars, vv_mars = get_body_barycentric_posvel("; q; "mars"; q; ", times_vector)"]) ]) ];
      JObj [
        ("cell_type", JStr "code");
        ("execution_count", JNum 9);
        ("metadata", JObj []);
        ("outputs", JArr [
          JObj [
            ("data", JObj [
              ("text/plain", JArr (repeat JOpaque 4)) ]);
            ("execution_count", JOpaque);
            ("metadata", JObj []);
            ("output_type", JOpaque) ] ]);
        ("source", JArr [
          JStr "rr_mars[:3]" ]) ];
      JObj [
        ("cell_type", JStr "code");
        ("execution_count", JNum 10);
        ("metadata", JObj []);
        ("outputs", JArr [
          JObj [
            ("data", JObj [
              ("text/plain", JArr (repeat JOpaque 4)) ]);
            ("execution_count", JOpaque);
            ("metadata", JObj []);
            ("output_type", JOpaque) ] ]);
        ("source", JArr [
          JStr "vv_mars[:3]" ]) ];
      JObj [
        ("cell_type", JStr "markdown");
        ("metadata", JObj []);
        ("source", JArr (repeat JOpaque 1)) ];
      JObj [
        ("cell_type", JStr "markdown");
        ("metadata", JObj []);
        ("source", JArr (repeat JOpaque 1)) ];
      JObj [
        ("cell_type", JStr "code");
        ("execution_count", JNum 11);
        ("metadata", JObj []);
        ("outputs", JArr []);
        ("source", JArr [
          JStr "# Compute the transfer orbit!";
          JStr "r0 = rr_earth[0].xyz";
          JStr "rf = rr_mars[-1].xyz";
          JStr "";
          JStr "(va, vb), = iod.lambert(Sun.k, r0, rf, tof)";
          JStr "";
          JStr "ss0_trans = Orbit.from_vectors(Sun, r0, va, date_launch)";
          JStr "ssf_trans = Orbit.from_vectors(Sun, rf, vb, date_arrival)" ]) ];
      JObj [
        ("cell_type", JStr "code");
        ("execution_count", JNum 12);
        ("metadata", JObj []);
        ("outputs", JArr []);
        ("source", JArr [
          JStr "from poliastro.plotting import OrbitPlotter3D";
          JStr "from poliastro.bodies import Earth, Mars";
          JStr "";
          JStr "from plotly.graph_objs import FigureWidget" ]) ];
      JObj [
        ("cell_type", JStr "code");
        ("execution_count", JNum 13);
        ("metadata", JObj [
          ("scrolled", JOpaque) ]);
        ("outputs", JArr [
          JObj [
            ("data", JObj [
              ("application/vnd.jupyter.widget-view+json", JObj [
                ("model_id", JOpaque);
                ("version_major", JOpaque);
                ("version_minor", JOpaque) ]);
              ("text/plain", JArr (repeat JOpaque 3)) ]);
            ("metadata", JObj []);
            ("output_type", JOpaque) ] ]);
        ("source", JArr [
          JStr "# I like color";
          JStr (cat ["color_earth0 = "; q; "#3d4cd5"; q]);
          JStr (cat ["color_earthf = "; q; "#525fd5"; q]);
          JStr (cat ["color_mars0 = "; q; "#ec3941"; q]);
          JStr (cat ["color_marsf = "; q; "#ec1f28"; q]);
          JStr (cat ["color_sun = "; q; "#ffcc00"; q]);
          JStr (cat ["color_orbit = "; q; "#888888"; q]);
          JStr (cat ["color_trans = "; q; "#444444"; q]);
          JStr "";
          JStr "fig = FigureWidget()";
          JStr "";
          JStr "frame = OrbitPlotter3D(figure=fig)";
          JStr "";
          JStr "frame.set_attractor(Sun)";
          JStr "";
          JStr "frame.plot_trajectory(rr_earth, label=Earth, color=color_earth0)";
          JStr "frame.plot_trajectory(rr_mars, label=Mars, color=color_marsf)";
          JStr "";
          JStr "frame.plot_trajectory(";
          JStr "    propagate(ss0_trans, time.TimeDelta(times_vector - ss0_trans.epoch)),";
          JStr (cat ["    label="; q; "MSL trajectory"; q; ","]);
          JStr "    color=color_trans,";
          JStr ")";
          JStr "";
          JStr "frame.set_view(30 * u.deg, 260 * u.deg, distance=3 * u.km)";
          JStr "";
          JStr (cat ["fig.layout.title = "; q; "MSL Mission: from Earth to Mars"; q]);
          JStr "fig" ]) ];
      JObj [
        ("cell_type", JStr "markdown");
        ("metadata", JObj []);
        ("source", JArr (repeat JOpaque 1)) ];
      JObj [
        ("cell_type", JStr "code");
        ("execution_count", JNum 14);
        ("metadata", JObj []);
        ("outputs", JArr []);
        ("source", JArr [
          JStr (cat ["#frame.savefig("; q; "msl3d.png"; q; ", title="; q; "MSL Mission: from Earth to Mars"; q; ")"]) ]) ];
      JObj [
        ("cell_type", JStr "markdown");
        ("metadata", JObj []);
        ("source", JArr (repeat JOpaque 1)) ];
      JObj [
        ("cell_type", JStr "code");
        ("execution_count", JNum 15);
        ("metadata", JObj []);
        ("outputs", JArr [
          JObj [
            ("data", JObj [
              ("image/jpeg", JOpaque);
              ("text/html", JArr (repeat JOpaque 9));
              ("text/plain", JArr (repeat JOpaque 1)) ]);
            ("execution_count", JOpaque);
            ("metadata", JObj []);
            ("output_type", JOpaque) ] ]);
        ("source", JArr [
          JStr "from IPython.display import YouTubeVideo";
          JStr "YouTubeVideo('zSgiXGELjbc')" ]) ] ]);
    ("metadata", JObj [
      ("kernelspec", JObj [
        ("display_name", JOpaque);
        ("language", JOpaque);
        ("name", JOpaque) ]);
      ("language_info", JObj [
        ("codemirror_mode", JObj [
          ("name", JOpaque);
          ("version", JOpaque) ]);
        ("file_extension", JOpaque);
        ("mimetype", JOpaque);
        ("name", JOpaque);
        ("nbconvert_exporter", JOpaque);
        ("pygments_lexer", JOpaque);
        ("version", JOpaque) ]);
      ("nbsphinx", JObj [
        ("execute", JOpaque) ]) ]);
    ("nbformat", JOpaque);
    ("nbformat_minor", JOpaque) ]
.

(** Lines of the file taken by a value: a scalar or an empty container
    stays on the line of its key; a container with entries adds the line of
    its closing bracket and the lines of its entries. *)
Fixpoint json_lines (j : json) : nat :=
  match j with
  | JArr ((_ :: _) as items) => 2 + list_sum (map json_lines items)
  | JObj ((_ :: _) as fields) =>
      2 + list_sum (map (fun kv => json_lines (snd kv)) fields)
  | _ => 1
  end.

Definition field (k : string) (j : json) : option json :=
  match j with
  | JObj fields =>
      match find (fun kv => String.eqb (fst kv) k) fields with
      | Some kv => Some (snd kv)
      | None => None
      end
  | _ => None
  end.

Definition items_of (j : option json) : list json :=
  match j with
  | Some (JArr items) => items
  | _ => []
  end.

Definition text_of (j : json) : string :=
  match j with
  | JStr s => s
  | _ => ""
  end.

(** A code cell: its execution count and its source lines. *)
Definition code_cell (c : json) : option (nat * list string) :=
  match field "cell_type" c, field "execution_count" c with
  | Some (JStr "code"), Some (JNum n) =>
      Some (n, map text_of (items_of (field "source" c)))
  | _, _ => None
  end.

Definition code_cells : list (nat * list string) :=
  flat_map (fun c => match code_cell c with Some x => [x] | None => [] end)
    (items_of (field "cells" notebook_json)).

(** The source line a call site names. *)
Definition site_text (s : Site) : option string :=
  match find (fun c => Nat.eqb (fst c) (site_cell s)) code_cells with
  | Some c => nth_error (snd c) (site_line s)
  | None => None
  end.

Fixpoint strip (s : string) : string :=
  match s with
  | String " " s' => strip s'
  | _ => s
  end.

Definition is_comment (line : string) : bool := prefix "#" (strip line).

(** The lines Python executes: code-cell lines that are neither blank nor
    comments. *)
Definition executable_lines : list string :=
  filter (fun l => negb (is_comment l) && negb (String.eqb (strip l) ""))
    (flat_map snd code_cells).

(** Occurrences of [pat] in [s]. *)
Fixpoint occurrences (pat s : string) : nat :=
  match s with
  | EmptyString => 0
  | String _ s' => (if prefix pat s then 1 else 0) + occurrences pat s'
  end.

(** Calls of [callee] in the executable lines: occurrences of the name
    followed by an opening parenthesis. *)
Definition calls_to (callee : string) : nat :=
  list_sum (map (occurrences (callee ++ "(")) executable_lines).

(** The first word of a line. *)
Fixpoint first_word (s : string) : string :=
  match s with
  | EmptyString => EmptyString
  | String c s' =>
      if (Ascii.eqb c " " || Ascii.eqb c ":" || Ascii.eqb c "(")%bool
      then EmptyString else String c (first_word s')
  end.

(** Executable lines that start with one of the [keywords]. *)
Definition statements_starting_with (keywords : list string) : list string :=
  filter (fun l => existsb (String.eqb (first_word (strip l))) keywords)
    executable_lines.

(** Executable lines that mention one of the [names]. *)
Definition lines_mentioning (names : list string) : list string :=
  filter (fun l => existsb (fun n => Nat.ltb 0 (occurrences n l)) names)
    executable_lines.

End Document.

(** ** Reading a trace *)

Section Reading.

Variable L : Library.

(** The entries of a trace selected, and read, by [pick]. *)
Definition pick_all {A} (pick : Event L -> option A) (tr : Trace L) : list A :=
  flat_map (fun se => match pick (snd se) with Some a => [a] | None => [] end) tr.

Definition time_calls : Trace L -> list (string * string * Outcome (Time L)) :=
  pick_all (fun e => match e with
                     | ETime _ v sc r => Some (v, sc, r)
                     | _ => None
                     end).

Definition time_range_calls
    : Trace L -> list (Time L * Time L * Z * Outcome (list (Time L))) :=
  pick_all (fun e => match e with
                     | ETimeRange _ a b n r => Some (a, b, n, r)
                     | _ => None
                     end).

Definition posvel_calls
    : Trace L
      -> list (string * list (Time L) * Outcome (list (Pos L) * list (Vel L))) :=
  pick_all (fun e => match e with
                     | EPosVel _ b ts r => Some (b, ts, r)
                     | _ => None
                     end).

Definition lambert_calls
    : Trace L
      -> list (GravParam L * Vec L * Vec L * TimeDelta L
               * Outcome (list (Vec L * Vec L))) :=
  pick_all (fun e => match e with
                     | ELambert _ k r0 rf tof r => Some (k, r0, rf, tof, r)
                     | _ => None
                     end).

Definition from_vectors_calls
    : Trace L -> list (Body L * Vec L * Vec L * Time L * Outcome (Orbit L)) :=
  pick_all (fun e => match e with
                     | EFromVectors _ a r v t res => Some (a, r, v, t, res)
                     | _ => None
                     end).

Definition propagate_calls
    : Trace L -> list (Orbit L * list (TimeDelta L) * Outcome (list (Pos L))) :=
  pick_all (fun e => match e with
                     | EPropagate _ o dts r => Some (o, dts, r)
                     | _ => None
                     end).

Definition plot_calls
    : Trace L -> list (list (Pos L) * (Body L + string) * string * Outcome unit) :=
  pick_all (fun e => match e with
                     | EPlotTrajectory _ _ traj l c r => Some (traj, l, c, r)
                     | _ => None
                     end).

(** The exceptions raised by the calls of a trace, in order. *)
Definition raised_in : Trace L -> list Exn := pick_all ev_raised.

(** [a[0]] and [a[-1]] as partial functions. *)
Definition first_of {A} (a : list A) : option A := hd_error a.
Definition last_of {A} (a : list A) : option A := hd_error (rev a).

End Reading.

Arguments pick_all {L A} pick tr.
Arguments time_calls {L} tr.
Arguments time_range_calls {L} tr.
Arguments posvel_calls {L} tr.
Arguments lambert_calls {L} tr.
Arguments from_vectors_calls {L} tr.
Arguments propagate_calls {L} tr.
Arguments plot_calls {L} tr.
Arguments raised_in {L} tr.

(** ** The outline of the script

    The calls and displays of the notebook in the order in which a run
    that raises nowhere performs them. *)
Definition script : list (Site * Kind) :=
  [ (1 @ 0, KImport); (1 @ 2, KImport); (1 @ 3, KImport); (1 @ 5, KImport);
    (1 @ 6, KImport); (1 @ 7, KImport); (1 @ 8, KImport); (1 @ 10, KImport);
    (2 @ 0, KImport); (2 @ 1, KSetEphemeris); (2 @ 1, KDisplay);
    (3 @ 3, KTime); (3 @ 4, KTime); (3 @ 7, KTo); (3 @ 7, KDisplay);
    (4 @ 0, KTimeRange); (4 @ 1, KDisplay);
    (5 @ 0, KPosVel); (6 @ 0, KDisplay); (7 @ 0, KDisplay);
    (8 @ 0, KPosVel); (9 @ 0, KDisplay); (10 @ 0, KDisplay);
    (11 @ 4, KLambert); (11 @ 6, KFromVectors); (11 @ 7, KFromVectors);
    (12 @ 0, KImport); (12 @ 1, KImport); (12 @ 3, KImport);
    (13 @ 9, KFigureWidget); (13 @ 11, KOrbitPlotter3D);
    (13 @ 13, KSetAttractor);
    (13 @ 15, KPlotTrajectory); (13 @ 16, KPlotTrajectory);
    (mkSite 13 18 19, KTimeDelta); (mkSite 13 18 19, KPropagate);
    (13 @ 18, KPlotTrajectory);
    (13 @ 24, KSetView); (13 @ 26, KSetTitle); (13 @ 27, KDisplay);
    (15 @ 0, KImport); (15 @ 1, KYouTubeVideo); (15 @ 1, KDisplay) ].

(** The text that writes a call of each kind. *)
Definition callee_text (k : Kind) : string :=
  match k with
  | KImport => "import "
  | KSetEphemeris => "solar_system_ephemeris.set("
  | KTime => "time.Time("
  | KTo => ".to("
  | KTimeRange => "time_range("
  | KPosVel => "get_body_barycentric_posvel("
  | KLambert => "iod.lambert("
  | KFromVectors => "Orbit.from_vectors("
  | KFigureWidget => "FigureWidget("
  | KOrbitPlotter3D => "OrbitPlotter3D("
  | KSetAttractor => ".set_attractor("
  | KTimeDelta => "time.TimeDelta("
  | KPropagate => "propagate("
  | KPlotTrajectory => ".plot_trajectory("
  | KSetView => ".set_view("
  | KSetTitle => ".layout.title = "
  | KYouTubeVideo => "YouTubeVideo("
  | KDisplay => ""
  end.

(** The entry stands on a source line that writes its call. *)
Definition written_at (entry : Site * Kind) : bool :=
  match Document.site_text (fst entry) with
  | Some line => Nat.ltb 0 (Document.occurrences (callee_text (snd entry)) line)
  | None => false
  end.

(** A trace without its data. *)
Definition outline {L} (tr : Trace L) : list (Site * Kind) :=
  map (fun se => (fst se, kind_of (snd se))) tr.

Fixpoint sorted_by {A} (leb : A -> A -> bool) (l : list A) : bool :=
  match l with
  | a :: (b :: _) as l' => leb a b && sorted_by leb l'
  | _ => true
  end.

(** ** More readings of a trace *)




Definition shown_quantities {L} (tr : Trace L) : list (Quantity L) :=
  pick_all (fun e => match e with
                     | EDisplay _ (ShQuantity _ q) => Some q
                     | _ => None
                     end) tr.

(** The cells that displayed a value, in order. *)
Definition displaying_cells {L} (tr : Trace L) : list nat :=
  flat_map (fun se => match snd se with
                      | EDisplay _ _ => [site_cell (fst se)]
                      | _ => []
                      end) tr.

Definition to_calls {L}
    : Trace L -> list (TimeDelta L * Unit * Outcome (Quantity L)) :=
  pick_all (fun e => match e with
                     | ETo _ q u r => Some (q, u, r)
                     | _ => None
                     end).

Definition timedelta_calls {L}
    : Trace L -> list (list (TimeDelta L) * Outcome (list (TimeDelta L))) :=
  pick_all (fun e => match e with
                     | ETimeDelta _ v r => Some (v, r)
                     | _ => None
                     end).

(** The trace entries of In [13] that build, fill and style the figure. *)
Definition figure_events {L} (tr : Trace L) : list (Event L) :=
  filter (fun e => match kind_of e with
                   | KFigureWidget | KOrbitPlotter3D | KSetAttractor
                   | KPlotTrajectory | KSetView | KSetTitle => true
                   | _ => false
                   end)
    (map snd tr).

(** The figures displayed. *)
Definition shown_figures {L} (tr : Trace L) : list (Figure L) :=
  pick_all (fun e => match e with
                     | EDisplay _ (ShFigure _ f) => Some f
                     | _ => None
                     end) tr.

(** The exceptions the statements of the script raise themselves: the two
    indexings and the destructuring of In [11]. *)
Definition own_exceptions : list Exn :=
  [ IndexError "index 0 is out of bounds for axis 0 with size 0";
    IndexError "index -1 is out of bounds for axis 0 with size 0";
    ValueError "not enough values to unpack (expected 1, got 0)";
    ValueError "too many values to unpack (expected 1)" ].

(** The colours In [13] binds and never passes to a call. *)
Definition unused_colors : list string :=
  [ color_earthf; color_mars0; color_sun; color_orbit ].

(** The code cells of the file that hold a recorded output. *)
Definition cells_with_output : list nat :=
  flat_map
    (fun c =>
       match Document.field "cell_type" c,
             Document.field "execution_count" c,
             Document.field "outputs" c with
       | Some (Document.JStr "code"), Some (Document.JNum n),
         Some (Document.JArr (_ :: _)) => [n]
       | _, _, _ => []
       end)
    (Document.items_of (Document.field "cells" Document.notebook_json)).

(** ** The epochs recorded in Out [4] *)
Module Recorded.

Local Open Scope Z_scope.

(** The five time stamps of the [text/plain] output of In [4]. *)
Definition out4 : list string :=
  [ "2011-11-26 15:02:00.000"; "2011-12-01 19:14:33.082";
    "2011-12-06 23:27:06.163"; "2011-12-12 03:39:39.245";
    "2011-12-17 07:52:12.327" ].

(** Reads [YYYY-MM-DD HH:MM:SS.mmm] as milliseconds on the uniform scale of
    [Calendar.uniform_seconds]. *)
Definition instant_ms (s : string) : option Z :=
  match Calendar.parse (substring 0 16 s),
        Calendar.number (substring 17 2 s),
        Calendar.number (substring 20 3 s) with
  | Some c, Some sec, Some ms =>
      if (String.length s =? 23)%nat
         && String.eqb (substring 16 1 s) ":"
         && String.eqb (substring 19 1 s) "."
         && (sec <=? 59)
      then Some ((Calendar.uniform_seconds c + sec) * 1000 + ms)
      else None
  | _, _, _ => None
  end.

(** The offsets of the recorded epochs from the launch date, in
    milliseconds. *)
Definition offsets_ms (launch : string) : list (option Z) :=
  match Calendar.parse launch with
  | Some c =>
      map (fun s => match instant_ms s with
                    | Some t => Some (t - Calendar.uniform_seconds c * 1000)
                    | None => None
                    end) out4
  | None => []
  end.

End Recorded.

(** ** Libraries for the empty-array runs *)

(** [L] with its ephemeris lookup replaced by [f]. *)
Definition with_lookup (L : Library)
    (f : string -> list (Time L) -> Ext (World L) (list (Pos L) * list (Vel L)))
    : Library :=
  {| World := World L;
     Time := Time L; TimeDelta := TimeDelta L; Quantity := Quantity L;
     ScienceState := ScienceState L;
     Pos := Pos L; Vel := Vel L; Vec := Vec L;
     GravParam := GravParam L; Body := Body L; Orbit := Orbit L;
     Plotter := Plotter L; Figure := Figure L; Video := Video L;
     Sun := Sun L; Earth := Earth L; Mars := Mars L;
     body_k := body_k L;
     xyz := xyz L;
     orbit_epoch := orbit_epoch L;
     time_sub := time_sub L;
     py_import := py_import L;
     solar_system_ephemeris_set := solar_system_ephemeris_set L;
     time_Time := time_Time L;
     to_unit := to_unit L;
     time_range := time_range L;
     get_body_barycentric_posvel := f;
     iod_lambert := iod_lambert L;
     Orbit_from_vectors := Orbit_from_vectors L;
     FigureWidget := FigureWidget L;
     OrbitPlotter3D := OrbitPlotter3D L;
     set_attractor := set_attractor L;
     time_TimeDelta := time_TimeDelta L;
     propagate := propagate L;
     plot_trajectory := plot_trajectory L;
     set_view := set_view L;
     set_layout_title := set_layout_title L;
     YouTubeVideo := YouTubeVideo L |}.

(** The stand-in with an ephemeris that has no entry for [body]: the lookup
    returns empty arrays for it. *)
Definition stub_without (body : string) : Library :=
  with_lookup Stub.nominal
    (fun b ts w =>
       if String.eqb b body then (w, Returned ([], []))
       else get_body_barycentric_posvel Stub.nominal b ts w).

(** [L] with its [time_range] replaced by [f]. *)
Definition with_time_range (L : Library)
    (f : Time L -> Time L -> Z -> Ext (World L) (list (Time L))) : Library :=
  {| World := World L;
     Time := Time L; TimeDelta := TimeDelta L; Quantity := Quantity L;
     ScienceState := ScienceState L;
     Pos := Pos L; Vel := Vel L; Vec := Vec L;
     GravParam := GravParam L; Body := Body L; Orbit := Orbit L;
     Plotter := Plotter L; Figure := Figure L; Video := Video L;
     Sun := Sun L; Earth := Earth L; Mars := Mars L;
     body_k := body_k L;
     xyz := xyz L;
     orbit_epoch := orbit_epoch L;
     time_sub := time_sub L;
     py_import := py_import L;
     solar_system_ephemeris_set := solar_system_ephemeris_set L;
     time_Time := time_Time L;
     to_unit := to_unit L;
     time_range := f;
     get_body_barycentric_posvel := get_body_barycentric_posvel L;
     iod_lambert := iod_lambert L;
     Orbit_from_vectors := Orbit_from_vectors L;
     FigureWidget := FigureWidget L;
     OrbitPlotter3D := OrbitPlotter3D L;
     set_attractor := set_attractor L;
     time_TimeDelta := time_TimeDelta L;
     propagate := propagate L;
     plot_trajectory := plot_trajectory L;
     set_view := set_view L;
     set_layout_title := set_layout_title L;
     YouTubeVideo := YouTubeVideo L |}.

(** Modelled from the spec: [time_range] of poliastro, which is not under
    [src/] and on which the spec has no text.  The model is the even
    spacing that the epochs recorded in Out [4] show: epoch [i] is [start]
    plus [i / (periods - 1)] of [end - start].  One epoch alone is [start],
    no epoch is an empty array, a negative count raises.  Instants are whole
    seconds, as in the stand-in. *)
Definition evenly_spaced (start end_ periods : Z)
    : Ext Stub.SWorld (list Z) :=
  if (periods <? 0)%Z
  then Stub.fail (ValueError "Number of samples must be non-negative.")
  else Stub.pure
         (map (fun i => (start + (end_ - start) * Z.of_nat i / (periods - 1))%Z)
            (seq 0 (Z.to_nat periods))).

(** The stand-in with that [time_range]. *)
Definition stub_evenly_spaced : Library :=
  with_time_range Stub.nominal evenly_spaced.

(** How many positions each ephemeris lookup returned ([None] if it
    raised). *)
Definition position_counts {L} (tr : Trace L) : list (string * option nat) :=
  map (fun c => (fst (fst c),
                 match snd c with
                 | Returned (rr, _) => Some (List.length rr)
                 | Raised _ => None
                 end))
    (posvel_calls tr).

(** What In [3] displays in a run on the stand-in: the flight time over
    3600. *)
Definition stub_hours : Quantity Stub.nominal := (Stub.flight_seconds, 3600%Z).

(** ** What the claims speak of *)

(** How In [11] is wired to In [3], In [4], In [5] and In [8]: the one solver
    call takes [Sun.k], the first Earth position, the last Mars position and
    the time of flight; its one pair of velocities goes, with the same
    positions and the two dates, into the two orbit constructions. *)
Definition transfer_wiring {L} (tr : Trace L) : Prop :=
  exists date_launch date_arrival times_vector rr_earth vv_earth rr_mars vv_mars
         p0 pf va vb ss0_trans res,
    time_calls tr = [ ("2011-11-26 15:02", "utc", Returned date_launch);
                      ("2012-08-06 05:17", "utc", Returned date_arrival) ] /\
    time_range_calls tr
      = [ (date_launch, date_arrival, 50%Z, Returned times_vector) ] /\
    posvel_calls tr
      = [ ("earth", times_vector, Returned (rr_earth, vv_earth));
          ("mars", times_vector, Returned (rr_mars, vv_mars)) ] /\
    first_of rr_earth = Some p0 /\
    last_of rr_mars = Some pf /\
    lambert_calls tr
      = [ (body_k L (Sun L), xyz L p0, xyz L pf,
           time_sub L date_arrival date_launch, Returned [(va, vb)]) ] /\
    from_vectors_calls tr
      = [ (Sun L, xyz L p0, va, date_launch, Returned ss0_trans);
          (Sun L, xyz L pf, vb, date_arrival, res) ].

(** The message of the [ValueError] raised by [(va, vb), = it] when [it]
    yields [sols]. *)
Definition unpacking_message {A} (sols : list A) : string :=
  match sols with
  | [] => "not enough values to unpack (expected 1, got 0)"
  | _ => "too many values to unpack (expected 1)"
  end.

(** C3, as the spec words it: one solver call, one ephemeris lookup, one
    plotting call, in a source of 428 lines. *)
Definition one_call_each : Prop :=
  Document.calls_to "iod.lambert" = 1%nat
  /\ Document.calls_to "get_body_barycentric_posvel" = 1%nat
  /\ Document.calls_to "plot_trajectory" = 1%nat
  /\ Document.json_lines Document.notebook_json = 428%nat.

Inductive Stage : Type := Fetch | Solve | Render.

Definition stage_of (k : Kind) : option Stage :=
  match k with
  | KPosVel => Some Fetch
  | KLambert => Some Solve
  | KPlotTrajectory => Some Render
  | _ => None
  end.

(** The stages a trace went through, one entry per ephemeris lookup, solver
    call and [plot_trajectory] call. *)
Definition stages {L} (tr : Trace L) : list Stage :=
  pick_all (fun e => stage_of (kind_of e)) tr.

Definition pipeline : list Stage := [Fetch; Fetch; Solve; Render; Render; Render].

(** The trace entries that produce or consume orbital data. *)
Definition orbital_events {L} (tr : Trace L) : list (Event L) :=
  filter (fun e => match kind_of e with
                   | KPosVel | KLambert | KFromVectors | KPropagate
                   | KPlotTrajectory => true
                   | _ => false
                   end)
    (map snd tr).

(** Where every stage takes its inputs from: the solver from the two
    lookups, the orbit from the solver, the propagator from the orbit, each
    [plot_trajectory] from a lookup or from the propagator. *)
Definition data_flow {L} (tr : Trace L) : Prop :=
  exists times_vector rr_earth vv_earth rr_mars vv_mars p0 pf tof va vb
         date_launch date_arrival ss0_trans res frame dts traj o1 o2 o3,
    first_of rr_earth = Some p0 /\ last_of rr_mars = Some pf /\
    orbital_events tr =
      [ EPosVel L "earth" times_vector (Returned (rr_earth, vv_earth));
        EPosVel L "mars" times_vector (Returned (rr_mars, vv_mars));
        ELambert L (body_k L (Sun L)) (xyz L p0) (xyz L pf) tof
          (Returned [(va, vb)]);
        EFromVectors L (Sun L) (xyz L p0) va date_launch (Returned ss0_trans);
        EFromVectors L (Sun L) (xyz L pf) vb date_arrival res;
        EPlotTrajectory L frame rr_earth (inl (Earth L)) color_earth0 o1;
        EPlotTrajectory L frame rr_mars (inl (Mars L)) color_marsf o2;
        EPropagate L ss0_trans dts (Returned traj);
        EPlotTrajectory L frame traj (inr "MSL trajectory") color_trans o3 ].

(** The statement keywords with which Python handles, or raises, an
    exception. *)
Definition handler_keywords : list string :=
  [ "try"; "except"; "finally"; "with"; "raise"; "assert" ].

(** The trace entries that select the ephemeris, build the vector of times
    or look a body up. *)
Definition ephemeris_events {L} (tr : Trace L) : list (Event L) :=
  filter (fun e => match kind_of e with
                   | KSetEphemeris | KTimeRange | KPosVel => true
                   | _ => false
                   end)
    (map snd tr).

(** Names with which Python code starts threads, processes or
    asynchronous tasks. *)
Definition concurrency_names : list string :=
  [ "thread"; "Thread"; "async"; "await"; "multiprocessing"; "subprocess";
    "concurrent"; "Process"; "Pool"; "fork"; "spawn" ].

(** Modelled from the spec: the sampling behaviour of [time_range],
    [get_body_barycentric_posvel], [Orbit.from_vectors], [time.TimeDelta] and
    [propagate], which belong to poliastro and astropy and are not under
    [src/].  The spec describes the lookup (a position and a velocity for a
    body and a time) and the propagator (advances a state at an epoch to a
    later time); it has no text on [time_range], whose even spacing is what
    the epochs recorded in Out [4] show.  In exact arithmetic: asked for two
    epochs or more, [time_range] returns [periods] epochs, the first [start]
    and the last [end] (asked for one it returns [start] alone, asked for
    none an empty array, of which nothing is assumed); a lookup returns one
    position and one velocity per epoch; an orbit keeps the epoch it was
    built with; [time.TimeDelta] of a [TimeDelta] array is that array; the
    propagator returns one position per offset. *)
Record SamplingContract (L : Library) : Prop := {
  time_range_samples :
    forall start end_ periods w w' ts,
      (2 <= periods)%Z ->
      time_range L start end_ periods w = (w', Returned ts) ->
      Z.of_nat (List.length ts) = periods
      /\ first_of ts = Some start /\ last_of ts = Some end_;
  lookup_per_epoch :
    forall body ts w w' rr vv,
      get_body_barycentric_posvel L body ts w = (w', Returned (rr, vv)) ->
      List.length rr = List.length ts /\ List.length vv = List.length ts;
  orbit_keeps_epoch :
    forall a r v t w w' o,
      Orbit_from_vectors L a r v t w = (w', Returned o) -> orbit_epoch L o = t;
  timedelta_of_timedelta :
    forall dts w w' r,
      time_TimeDelta L dts w = (w', Returned r) -> r = dts;
  position_per_offset :
    forall o dts w w' traj,
      propagate L o dts w = (w', Returned traj) ->
      List.length traj = List.length dts
}.

(** What the code alone fixes of the grid, whatever the libraries do: one
    [time_range] call for N = 50 epochs from the launch to the arrival date;
    both lookups over the vector it returned; the offsets handed to
    [time.TimeDelta] are that vector's epochs minus the epoch of the orbit
    built on line 6 of In [11] for the launch date; the propagator receives
    that orbit and what [time.TimeDelta] returned; the three plotted
    trajectories are the two position arrays and the propagator's result. *)
Definition shared_epochs {L} (tr : Trace L) : Prop :=
  exists date_launch date_arrival times_vector rr_earth vv_earth rr_mars
         vv_mars r0 va ss0_trans dts traj,
    time_range_calls tr
    = [ (date_launch, date_arrival, N, Returned times_vector) ]
    /\ N = 50%Z
    /\ posvel_calls tr
       = [ ("earth", times_vector, Returned (rr_earth, vv_earth));
           ("mars", times_vector, Returned (rr_mars, vv_mars)) ]
    /\ In (11 @ 6,
           EFromVectors L (Sun L) r0 va date_launch (Returned ss0_trans)) tr
    /\ timedelta_calls tr
       = [ (map (fun t => time_sub L t (orbit_epoch L ss0_trans)) times_vector,
            Returned dts) ]
    /\ propagate_calls tr = [ (ss0_trans, dts, Returned traj) ]
    /\ map (fun c => fst (fst (fst c))) (plot_calls tr)
       = [ rr_earth; rr_mars; traj ].

(** The three plotted trajectories are sampled at the same fifty epochs. *)
Definition shared_grid {L} (tr : Trace L) : Prop :=
  exists date_launch date_arrival times_vector rr_earth vv_earth rr_mars
         vv_mars ss0_trans traj,
    time_range_calls tr
    = [ (date_launch, date_arrival, N, Returned times_vector) ]
    /\ N = 50%Z
    /\ List.length times_vector = 50%nat
    /\ first_of times_vector = Some date_launch
    /\ last_of times_vector = Some date_arrival
    /\ posvel_calls tr
       = [ ("earth", times_vector, Returned (rr_earth, vv_earth));
           ("mars", times_vector, Returned (rr_mars, vv_mars)) ]
    /\ List.length rr_earth = 50%nat
    /\ List.length rr_mars = 50%nat
    /\ propagate_calls tr
       = [ (ss0_trans,
            map (fun t => time_sub L t date_launch) times_vector,
            Returned traj) ]
    /\ first_of (map (fun t => time_sub L t date_launch) times_vector)
       = Some (time_sub L date_launch date_launch)
    /\ List.length traj = 50%nat
    /\ map (fun c => fst (fst (fst c))) (plot_calls tr)
       = [ rr_earth; rr_mars; traj ].

(** The trace without the entries of site [s]. *)
Definition without_site {L} (s : Site) (tr : Trace L) : Trace L :=
  filter (fun se => negb (site_eqb (fst se) s)) tr.

(** Some call made at site [s] raised. *)
Definition raised_at {L} (s : Site) (tr : Trace L) : bool :=
  existsb (fun se => site_eqb (fst se) s
                     && match ev_raised (snd se) with
                        | Some _ => true
                        | None => false
                        end) tr.

(** [Orbit.from_vectors] only builds an object: it leaves the interpreter
    state as it found it. *)
Definition constructs_purely (L : Library) : Prop :=
  forall a r v t w, fst (Orbit_from_vectors L a r v t w) = w.

(** ** Reasoning about the script: weakest preconditions *)

(** [wp m Q st]: running [m] from [st] ends in a state and an outcome that
    satisfy [Q]. *)
Definition wp {L A} (m : M L A) (Q : St L -> Outcome A -> Prop) (st : St L)
    : Prop :=
  Q (fst (m st)) (snd (m st)).

(** ** Rules and helper lemmas *)

Section Rules.

Variable L : Library.

Lemma wp_ret {A} (a : A) (Q : St L -> Outcome A -> Prop) st :
  Q st (Returned a) -> wp (ret a) Q st.
Proof. exact (fun H => H). Qed.

Lemma wp_raise {A} (e : Exn) (Q : St L -> Outcome A -> Prop) st :
  Q st (Raised e) -> wp (raise e) Q st.
Proof. exact (fun H => H). Qed.

Lemma wp_bind {A B} (m : M L A) (f : A -> M L B)
    (Q : St L -> Outcome B -> Prop) st :
  wp m (fun st' o => match o with
                     | Returned a => wp (f a) Q st'
                     | Raised e => Q st' (Raised e)
                     end) st ->
  wp (bind m f) Q st.
Proof.
  unfold wp, bind. destruct (m st) as [st' [a | e]]; cbn; auto.
Qed.

Lemma wp_call {A} (s : Site) (mk : Outcome A -> Event L)
    (f : Ext (World L) A) (Q : St L -> Outcome A -> Prop) st :
  (forall w' r, f (world st) = (w', r) ->
                Q (mkSt w' (trace st ++ [(s, mk r)])) r) ->
  wp (call s mk f) Q st.
Proof.
  unfold wp, call. intros H.
  destruct (f (world st)) as [w' r] eqn:E. cbn. now apply H.
Qed.

Lemma wp_display (s : Site) (v : Shown L)
    (Q : St L -> Outcome unit -> Prop) st :
  Q (mkSt (world st) (trace st ++ [(s, EDisplay L v)])) (Returned tt) ->
  wp (display s v) Q st.
Proof. exact (fun H => H). Qed.

Lemma wp_run {A} (m : M L A) (P : St L * Outcome A -> Prop) (w : World L) :
  wp m (fun st o => P (st, o)) (mkSt w []) -> P (run m w).
Proof.
  unfold wp, run. now destruct (m (mkSt w [])).
Qed.

End Rules.

Lemma first_of_map {A B} (f : A -> B) (l : list A) (a : A) :
  first_of l = Some a -> first_of (map f l) = Some (f a).
Proof.
  destruct l as [| x l]; cbn; intros H; [ discriminate H | ].
  now inversion H.
Qed.

Lemma last_of_map_seq {B} (f : nat -> B) (m : nat) :
  last_of (map f (seq 0 (S m))) = Some (f m).
Proof.
  unfold last_of. rewrite seq_S, map_app, rev_app_distr. reflexivity.
Qed.

(** The stand-in with the evenly spaced [time_range] samples as the
    contract says. *)
Lemma evenly_spaced_samples : SamplingContract stub_evenly_spaced.
Proof.
  constructor.
  - intros start end_ periods w w' ts Hge. cbn. unfold evenly_spaced.
    destruct (Z.ltb_spec periods 0) as [Hlt | _]; [ lia | ].
    cbn. intros E. inversion E; subst; clear E.
    assert (Hm : Z.to_nat periods = S (Z.to_nat (periods - 1))) by lia.
    split; [ rewrite length_map, length_seq; lia | ].
    rewrite Hm. split.
    + cbn. rewrite Z.mul_0_r, Z.div_0_l by lia. f_equal. lia.
    + rewrite last_of_map_seq. f_equal.
      rewrite Z2Nat.id by lia. rewrite Z.div_mul by lia. lia.
  - intros body ts w w' rr vv. cbn. unfold Stub.s_posvel. cbn.
    destruct (String.eqb (Stub.ephemeris w) "jpl"); intros E;
      inversion E; subst.
    now rewrite !length_map.
  - intros a r v t w w' o. cbn. intros E. now inversion E.
  - intros dts w w' r. cbn. intros E. now inversion E.
  - intros o dts w w' traj. cbn. intros E. inversion E; subst.
    apply length_map.
Qed.



Lemma cells_with_output_are :
  cells_with_output = [ 2; 3; 4; 6; 7; 9; 10; 13; 15 ]%nat.
Proof. vm_compute. reflexivity. Qed.

(** Asked for one epoch the evenly spaced [time_range] returns the start
    alone, asked for none an empty array. *)
Lemma evenly_spaced_short_ranges (start end_ : Z) (w : Stub.SWorld) :
  evenly_spaced start end_ 1 w = (w, Returned [start])
  /\ evenly_spaced start end_ 0 w = (w, Returned []).
Proof.
  unfold evenly_spaced, Stub.pure. simpl. rewrite Z.mul_0_r. simpl.
  rewrite Z.add_0_r. split; reflexivity.
Qed.

(** ** Proof automation *)

(** Symbolic execution of the script, one statement at a time. *)
Ltac wp_rule :=
  lazymatch goal with
  | |- wp (bind _ _) _ _ => apply wp_bind
  | |- wp (call _ _ _) _ _ =>
      let w := fresh "w" in
      let r := fresh "r" in
      let E := fresh "E" in
      apply wp_call; intros w r E; cbn [world trace] in E |- *
  | |- wp (display _ _) _ _ => apply wp_display; cbn [world trace]
  | |- wp (ret _) _ _ => apply wp_ret
  | |- wp (raise _) _ _ => apply wp_raise
  | |- wp (match ?x with pair _ _ => _ end) _ _ => destruct x
  | |- wp (index_first ?a) _ _ =>
      unfold index_first; destruct a
  | |- wp (index_last ?a) _ _ =>
      let E := fresh "E" in unfold index_last; destruct (rev a) eqn:E
  | |- wp (unpack_single ?a) _ _ =>
      unfold unpack_single; destruct a as [| ? [| ? ?]]
  | |- match ?r with Returned _ => _ | Raised _ => _ end => destruct r
  | |- wp ?m _ _ =>
      let h := head_of m in unfold h
  end
with head_of m :=
  lazymatch m with
  | ?f _ => head_of f
  | _ => m
  end.

Ltac wp_exec := repeat (cbv beta iota; wp_rule).

(** Executes the script on a goal [P (run m w)]. *)
Ltac execute m w :=
  pattern (run m w); apply wp_run;
  match goal with
  | |- wp _ ?Q _ =>
      let post := fresh "post" in
      set (post := Q); wp_exec; subst post;
      cbv beta; cbn [fst snd trace world app]
  end.

(** As [wp_rule], for a second run on the same libraries: the outcome of a
    call that the first run made from the same state is known. *)
Ltac wp_rule_known :=
  lazymatch goal with
  | |- wp (call _ _ _) _ _ =>
      let w := fresh "w" in
      let r := fresh "r" in
      let E := fresh "E" in
      apply wp_call; intros w r E; cbn [world trace] in E |- *;
      match type of E with
      | ?lhs = _ =>
          match goal with
          | H : lhs = _ |- _ => rewrite H in E; injection E as <- <-
          end
      end
  | |- wp (index_first (_ :: _)) _ _ => unfold index_first
  | |- wp (index_first []) _ _ => unfold index_first
  | |- wp (index_last ?a) _ _ =>
      unfold index_last;
      match goal with H : rev a = _ |- _ => rewrite H end
  | |- wp (unpack_single _) _ _ => unfold unpack_single
  | |- _ => wp_rule
  end.

Ltac wp_exec_known := repeat (cbv beta iota; wp_rule_known).

Ltac execute_again m w :=
  pattern (run m w); apply wp_run;
  match goal with
  | |- wp _ ?Q _ =>
      let post := fresh "post" in
      set (post := Q); wp_exec_known; subst post;
      cbv beta; cbn [fst snd trace world app]
  end.

(** The world after a pure construction is the world before it. *)
Ltac use_purity Hpure :=
  repeat match goal with
    | E : Orbit_from_vectors ?L ?a ?r ?v ?t ?w0 = (?w1, _) |- _ =>
        lazymatch w1 with
        | w0 => fail
        | _ =>
            let H := fresh "H" in
            pose proof (Hpure a r v t w0) as H;
            rewrite E in H; cbn [fst] in H; subst w1
        end
    end.

(** [execute] on the first run the goal speaks of. *)
Ltac by_execution :=
  match goal with
  | |- context [run ?m ?w] => execute m w
  end.

Ltac use_rev :=
  match goal with
  | H : rev _ = _ |- _ => unfold last_of; rewrite H
  end.

(** Replaces what is known of a library call by what the contract says of
    its result. *)
Ltac use_contract C :=
  repeat match goal with
    | E : time_range _ _ _ N _ = (_, Returned _) |- _ =>
        apply (time_range_samples _ C) in E;
        [ destruct E as [? [? ?]] | unfold N; lia ]
    | E : get_body_barycentric_posvel _ _ _ _ = (_, Returned (_, _)) |- _ =>
        apply (lookup_per_epoch _ C) in E; destruct E as [? ?]
    | E : Orbit_from_vectors _ _ _ _ _ _ = (_, Returned _) |- _ =>
        apply (orbit_keeps_epoch _ C) in E
    | E : time_TimeDelta _ _ _ = (_, Returned _) |- _ =>
        apply (timedelta_of_timedelta _ C) in E; subst
    | E : propagate _ _ _ _ = (_, Returned _) |- _ =>
        apply (position_per_offset _ C) in E
    end;
  repeat match goal with
    | H : orbit_epoch _ _ = _ |- _ => try rewrite H in *; clear H
    end.

(** ** Concrete runs on the stand-in *)

Example nominal_run_completes :
  snd (run (notebook Stub.nominal) Stub.initial) = Returned tt
  /\ outline (trace (fst (run (notebook Stub.nominal) Stub.initial))) = script.
Proof. split; vm_compute; reflexivity. Qed.

Example nominal_run_plots_three_trajectories :
  map (fun p => (fst p, List.length (snd p)))
    (Stub.plotted (world (fst (run (notebook Stub.nominal) Stub.initial))))
  = [ ("Earth", 50%nat); ("Mars", 50%nat); ("MSL trajectory", 50%nat) ].
Proof. vm_compute. reflexivity. Qed.

Example two_pairs_run_stops_at_the_unpacking :
  snd (run (notebook Stub.two_pairs) Stub.initial)
  = Raised (ValueError "too many values to unpack (expected 1)")
  /\ List.length (trace (fst (run (notebook Stub.two_pairs) Stub.initial)))
     = 24%nat.
Proof. split; vm_compute; reflexivity. Qed.

Example offline_run_stops_at_the_first_lookup :
  snd (run (notebook Stub.offline) Stub.initial)
  = Raised (mkExn "URLError" "the ephemeris kernel cannot be fetched")
  /\ map snd (skipn 17 (outline (trace (fst (run (notebook Stub.offline)
                                                Stub.initial)))))
     = [ KPosVel ].
Proof. split; vm_compute; reflexivity. Qed.

Example code_cells_of_the_file :
  map fst Document.code_cells = seq 1 15
  /\ Document.site_text (11 @ 4)
     = Some "(va, vb), = iod.lambert(Sun.k, r0, rf, tof)"
  /\ Document.site_text (11 @ 7)
     = Some "ssf_trans = Orbit.from_vectors(Sun, rf, vb, date_arrival)".
Proof. repeat split; vm_compute; reflexivity. Qed.

(** ** The transfer orbit (In [11]) *)

(** C1. In every run the Lambert solver is called at most once; in every run
    that reaches the construction of the arrival orbit it was called exactly
    once, with [Sun.k], the [xyz] of Earth's position at the first epoch of
    [times_vector] (the time range that starts at the launch date), the
    [xyz] of Mars' position at the last epoch (the arrival date) and
    [date_arrival - date_launch]; the pair [(va, vb)] it returned is used
    with those positions and the two dates to construct [ss0_trans] and
    [ssf_trans] around the Sun. *)
Theorem lambert_called_once_and_wired (L : Library) (w : World L) :
  (List.length (lambert_calls (trace (fst (run (notebook L) w)))) <= 1)%nat
  /\ (List.length (from_vectors_calls (trace (fst (run (notebook L) w)))) = 2%nat
      -> transfer_wiring (trace (fst (run (notebook L) w)))).
Proof.
  by_execution.
  all: split; [ cbn; lia | cbn; intros H; try discriminate H ].
  all: unfold transfer_wiring; do 13 eexists.
  all: repeat split; first [ reflexivity | use_rev; reflexivity ].
Qed.

Lemma lambert_called_once_and_wired_witness :
  List.length
    (from_vectors_calls
       (trace (fst (run (notebook Stub.nominal) Stub.initial))))
  = 2%nat
  /\ transfer_wiring
       (trace (fst (run (notebook Stub.nominal) Stub.initial))).
Proof.
  split.
  - vm_compute. reflexivity.
  - apply (lambert_called_once_and_wired Stub.nominal Stub.initial).
    vm_compute. reflexivity.
Defined.

(** C2. Whenever the Lambert solver returns a result that does not hold
    exactly one pair (none, or two or more), the destructuring assignment
    raises the unpacking [ValueError]: the run ends with that exception, the
    solver call is the last entry of the trace, and no transfer orbit is
    constructed. *)
Theorem unpacking_needs_exactly_one_pair (L : Library) (w : World L)
    (k : GravParam L) (r0 rf : Vec L) (tof : TimeDelta L)
    (sols : list (Vec L * Vec L)) :
  In (k, r0, rf, tof, Returned sols)
     (lambert_calls (trace (fst (run (notebook L) w)))) ->
  List.length sols <> 1%nat ->
  snd (run (notebook L) w) = Raised (ValueError (unpacking_message sols))
  /\ last_of (trace (fst (run (notebook L) w)))
     = Some (11 @ 4, ELambert L k r0 rf tof (Returned sols))
  /\ from_vectors_calls (trace (fst (run (notebook L) w))) = [].
Proof.
  by_execution.
  all: cbn; intros Hin Hlen; try contradiction.
  all: destruct Hin as [Hin | []]; inversion Hin; subst; cbn in Hlen.
  all: try congruence.
  all: repeat split; reflexivity.
Qed.

Lemma unpacking_needs_exactly_one_pair_witness :
  (In (Stub.sun_k, Stub.departure_r, Stub.arrival_r, Stub.flight_seconds,
       Returned [ (Stub.chord_v, Stub.chord_v); (Stub.chord_v, Stub.chord_v) ])
      (lambert_calls (trace (fst (run (notebook Stub.two_pairs) Stub.initial))))
   /\ List.length [ (Stub.chord_v, Stub.chord_v); (Stub.chord_v, Stub.chord_v) ]
      <> 1%nat)
  /\ (snd (run (notebook Stub.two_pairs) Stub.initial)
       = Raised (ValueError "too many values to unpack (expected 1)")
      /\ last_of (trace (fst (run (notebook Stub.two_pairs) Stub.initial)))
         = Some (11 @ 4,
                 ELambert Stub.two_pairs Stub.sun_k Stub.departure_r
                   Stub.arrival_r Stub.flight_seconds
                   (Returned [ (Stub.chord_v, Stub.chord_v);
                               (Stub.chord_v, Stub.chord_v) ]))
      /\ from_vectors_calls
           (trace (fst (run (notebook Stub.two_pairs) Stub.initial))) = []).
Proof.
  assert (Hin : In (Stub.sun_k, Stub.departure_r, Stub.arrival_r,
                    Stub.flight_seconds,
                    Returned [ (Stub.chord_v, Stub.chord_v);
                               (Stub.chord_v, Stub.chord_v) ])
                  (lambert_calls
                     (trace (fst (run (notebook Stub.two_pairs) Stub.initial))))).
  { vm_compute. left. reflexivity. }
  assert (Hlen : List.length [ (Stub.chord_v, Stub.chord_v);
                               (Stub.chord_v, Stub.chord_v) ] <> 1%nat)
    by (simpl; discriminate).
  split; [ split; assumption | ].
  exact (unpacking_needs_exactly_one_pair Stub.two_pairs Stub.initial
           _ _ _ _ _ Hin Hlen).
Defined.

(** ** Counting the calls *)

(** C3 fails as worded: the code cells write two ephemeris lookups and
    three [plot_trajectory] calls, and the file has 427 lines. *)
Lemma one_call_each_refuted : ~ one_call_each.
Proof.
  unfold one_call_each. intros [_ [H _]]. vm_compute in H. discriminate H.
Qed.

(** C3, amended. The code cells write one call of [iod.lambert], two of
    [get_body_barycentric_posvel] and three of [plot_trajectory], and the
    file has 427 lines; no run makes more calls than that, and a run that
    ends without an exception makes exactly that many. *)
Theorem call_counts (L : Library) (w : World L) :
  (Document.calls_to "iod.lambert" = 1%nat
   /\ Document.calls_to "get_body_barycentric_posvel" = 2%nat
   /\ Document.calls_to "plot_trajectory" = 3%nat
   /\ Document.json_lines Document.notebook_json = 427%nat)
  /\ ((List.length (lambert_calls (trace (fst (run (notebook L) w)))) <= 1)%nat
      /\ (List.length (posvel_calls (trace (fst (run (notebook L) w)))) <= 2)%nat
      /\ (List.length (plot_calls (trace (fst (run (notebook L) w)))) <= 3)%nat)
  /\ (snd (run (notebook L) w) = Returned tt ->
      List.length (lambert_calls (trace (fst (run (notebook L) w)))) = 1%nat
      /\ List.length (posvel_calls (trace (fst (run (notebook L) w)))) = 2%nat
      /\ List.length (plot_calls (trace (fst (run (notebook L) w)))) = 3%nat).
Proof.
  split; [ vm_compute; repeat split | ].
  by_execution.
  all: split; [ cbn; lia | ].
  all: intros H; try discriminate H; cbn; repeat split.
Qed.

Lemma call_counts_witness :
  snd (run (notebook Stub.nominal) Stub.initial) = Returned tt
  /\ List.length
       (lambert_calls (trace (fst (run (notebook Stub.nominal) Stub.initial))))
     = 1%nat
  /\ List.length
       (posvel_calls (trace (fst (run (notebook Stub.nominal) Stub.initial))))
     = 2%nat
  /\ List.length
       (plot_calls (trace (fst (run (notebook Stub.nominal) Stub.initial))))
     = 3%nat.
Proof.
  assert (H : snd (run (notebook Stub.nominal) Stub.initial) = Returned tt)
    by (vm_compute; reflexivity).
  split; [ exact H | ].
  exact (proj2 (proj2 (call_counts Stub.nominal Stub.initial)) H).
Defined.

(** ** The three stages *)

(** C4. In every run the ephemeris lookups come first, the solver call
    second and the [plot_trajectory] calls last; in every run that goes
    through all of them, each call takes its inputs from the results of
    calls made before it. *)
Theorem stages_in_order (L : Library) (w : World L) :
  (exists rest, stages (trace (fst (run (notebook L) w))) ++ rest = pipeline)
  /\ (stages (trace (fst (run (notebook L) w))) = pipeline ->
      data_flow (trace (fst (run (notebook L) w)))).
Proof.
  by_execution.
  all: split; [ cbn; eexists; reflexivity | ].
  all: cbn; intros H; try discriminate H.
  all: unfold data_flow; do 20 eexists.
  all: cbn; repeat split; first [ reflexivity | use_rev; reflexivity ].
Qed.

Lemma stages_in_order_witness :
  stages (trace (fst (run (notebook Stub.nominal) Stub.initial))) = pipeline
  /\ data_flow (trace (fst (run (notebook Stub.nominal) Stub.initial))).
Proof.
  assert (H : stages (trace (fst (run (notebook Stub.nominal) Stub.initial)))
              = pipeline) by (vm_compute; reflexivity).
  split; [ exact H | ].
  exact (proj2 (stages_in_order Stub.nominal Stub.initial) H).
Defined.

(** ** The time of flight *)

(** C5. The time of flight handed to the solver is [date_arrival -
    date_launch], the difference of the two [time.Time] values built from
    2011-11-26 15:02 and 2012-08-06 05:17 UTC.  On the civil calendar that
    span is 253 days 14 hours 15 minutes; one leap second (2012-06-30) falls
    in it, so the elapsed time is one second more, which in hours and to
    eight decimals is the displayed 6086.25027778. *)
Theorem time_of_flight (L : Library) (w : World L) :
  (forall k r0 rf tof res,
      In (k, r0, rf, tof, res)
         (lambert_calls (trace (fst (run (notebook L) w)))) ->
      exists date_launch date_arrival,
        time_calls (trace (fst (run (notebook L) w)))
        = [ ("2011-11-26 15:02", "utc", Returned date_launch);
            ("2012-08-06 05:17", "utc", Returned date_arrival) ]
        /\ tof = time_sub L date_arrival date_launch)
  /\ Calendar.wall_span_minutes "2011-11-26 15:02" "2012-08-06 05:17"
     = Some ((253 * 24 + 14) * 60 + 15)%Z
  /\ (exists a b,
        Calendar.parse "2011-11-26 15:02" = Some a
        /\ Calendar.parse "2012-08-06 05:17" = Some b
        /\ Calendar.leap_second_days_between a b = [ (2012, 6, 30)%Z ])
  /\ Calendar.elapsed_seconds "2011-11-26 15:02" "2012-08-06 05:17"
     = Some (((253 * 24 + 14) * 60 + 15) * 60 + 1)%Z
  /\ Calendar.rounds_to (((253 * 24 + 14) * 60 + 15) * 60 + 1) 3600 8
       608625027778.
Proof.
  split.
  - by_execution.
    all: cbn; intros k r0 rf tof res Hin; try contradiction.
    all: destruct Hin as [Hin | []]; inversion Hin; subst.
    all: do 2 eexists; split; reflexivity.
  - split; [ vm_compute; reflexivity | ].
    split; [ do 2 eexists; repeat split; vm_compute; reflexivity | ].
    split; [ vm_compute; reflexivity | ].
    unfold Calendar.rounds_to. vm_compute. discriminate.
Qed.

Lemma time_of_flight_witness :
  In (Stub.sun_k, Stub.departure_r, Stub.arrival_r, Stub.flight_seconds,
      Returned [ (Stub.chord_v, Stub.chord_v) ])
     (lambert_calls (trace (fst (run (notebook Stub.nominal) Stub.initial))))
  /\ exists date_launch date_arrival,
       time_calls (trace (fst (run (notebook Stub.nominal) Stub.initial)))
       = [ ("2011-11-26 15:02", "utc", Returned date_launch);
           ("2012-08-06 05:17", "utc", Returned date_arrival) ]
       /\ Stub.flight_seconds = time_sub Stub.nominal date_arrival date_launch.
Proof.
  assert (Hin : In (Stub.sun_k, Stub.departure_r, Stub.arrival_r,
                    Stub.flight_seconds,
                    Returned [ (Stub.chord_v, Stub.chord_v) ])
                  (lambert_calls
                     (trace (fst (run (notebook Stub.nominal) Stub.initial))))).
  { vm_compute. left. reflexivity. }
  split; [ exact Hin | ].
  exact (proj1 (time_of_flight Stub.nominal Stub.initial) _ _ _ _ _ Hin).
Defined.

(** ** Exceptions *)

(** C6. No statement of the code cells is a [try], [except], [finally],
    [with], [raise] or [assert]; and whenever a library call raises, the run
    ends with that very exception, the raising call is the last entry of the
    trace (nothing is called or displayed after it), and no other call
    raised. *)
Theorem exceptions_propagate (L : Library) (w : World L) :
  Document.statements_starting_with handler_keywords = []
  /\ forall e,
       In e (raised_in (trace (fst (run (notebook L) w)))) ->
       snd (run (notebook L) w) = Raised e
       /\ raised_in (trace (fst (run (notebook L) w))) = [e]
       /\ exists s ev,
            last_of (trace (fst (run (notebook L) w))) = Some (s, ev)
            /\ ev_raised ev = Some e.
Proof.
  split; [ vm_compute; reflexivity | ].
  by_execution.
  all: cbn; intros e0 Hin; try contradiction.
  all: destruct Hin as [Hin | []]; subst.
  all: repeat split; do 2 eexists; split; reflexivity.
Qed.

Lemma exceptions_propagate_witness :
  In (mkExn "URLError" "the ephemeris kernel cannot be fetched")
     (raised_in (trace (fst (run (notebook Stub.offline) Stub.initial))))
  /\ snd (run (notebook Stub.offline) Stub.initial)
     = Raised (mkExn "URLError" "the ephemeris kernel cannot be fetched")
  /\ raised_in (trace (fst (run (notebook Stub.offline) Stub.initial)))
     = [ mkExn "URLError" "the ephemeris kernel cannot be fetched" ].
Proof.
  assert (Hin : In (mkExn "URLError" "the ephemeris kernel cannot be fetched")
                  (raised_in
                     (trace (fst (run (notebook Stub.offline) Stub.initial))))).
  { vm_compute. left. reflexivity. }
  split; [ exact Hin | ].
  destruct (proj2 (exceptions_propagate Stub.offline Stub.initial) _ Hin)
    as [Hres [Hone _]].
  split; [ exact Hres | exact Hone ].
Defined.

(** ** The ephemeris lookups *)

(** C7. A lookup takes a body identifier and a vector of times and returns
    positions and velocities.  Whenever the notebook looks a body up, it has
    selected the [jpl] ephemeris before; the first lookup is for [earth]
    over [times_vector], the second, if the run gets to it, for [mars] over
    the same [times_vector]; a run that ends without an exception has made
    both. *)
Theorem ephemeris_lookups (L : Library) (w : World L) :
  (posvel_calls (trace (fst (run (notebook L) w))) <> [] ->
   exists s date_launch date_arrival times_vector r1 rest,
     ephemeris_events (trace (fst (run (notebook L) w)))
     = ESetEphemeris L "jpl" (Returned s)
       :: ETimeRange L date_launch date_arrival 50 (Returned times_vector)
       :: EPosVel L "earth" times_vector r1 :: rest
     /\ (rest = []
         \/ exists rr vv r2,
              r1 = Returned (rr, vv)
              /\ rest = [ EPosVel L "mars" times_vector r2 ]))
  /\ (snd (run (notebook L) w) = Returned tt ->
      exists times_vector rr_earth vv_earth rr_mars vv_mars,
        posvel_calls (trace (fst (run (notebook L) w)))
        = [ ("earth", times_vector, Returned (rr_earth, vv_earth));
            ("mars", times_vector, Returned (rr_mars, vv_mars)) ]).
Proof.
  by_execution.
  all: split; cbn; intros H; try congruence.
  all: try (do 5 eexists; reflexivity).
  all: do 6 eexists; split; [ reflexivity | ].
  all: first [ left; reflexivity
             | right; do 3 eexists; split; reflexivity ].
Qed.

Lemma ephemeris_lookups_witness :
  (posvel_calls (trace (fst (run (notebook Stub.nominal) Stub.initial))) <> []
   /\ snd (run (notebook Stub.nominal) Stub.initial) = Returned tt)
  /\ exists times_vector rr_earth vv_earth rr_mars vv_mars,
       posvel_calls (trace (fst (run (notebook Stub.nominal) Stub.initial)))
       = [ ("earth", times_vector, Returned (rr_earth, vv_earth));
           ("mars", times_vector, Returned (rr_mars, vv_mars)) ].
Proof.
  assert (H : snd (run (notebook Stub.nominal) Stub.initial) = Returned tt)
    by (vm_compute; reflexivity).
  assert (H' : posvel_calls
                 (trace (fst (run (notebook Stub.nominal) Stub.initial))) <> [])
    by (vm_compute; discriminate).
  split; [ split; assumption | ].
  exact (proj2 (ephemeris_lookups Stub.nominal Stub.initial) H).
Defined.

(** ** One linear sequence *)

(** C8. No executable line of the code cells names a thread, a process or
    an asynchronous task.  Every entry of the outline stands on a source
    line that writes its call, the outline is in source order, and the
    trace of every run is an initial part of the outline: the effects occur
    one after the other, in source order. *)
Theorem single_linear_sequence (L : Library) (w : World L) :
  Document.lines_mentioning concurrency_names = []
  /\ forallb written_at script = true
  /\ sorted_by site_leb (map fst script) = true
  /\ (exists rest, outline (trace (fst (run (notebook L) w))) ++ rest = script)
  /\ sorted_by site_leb (map fst (trace (fst (run (notebook L) w)))) = true.
Proof.
  split; [ vm_compute; reflexivity | ].
  split; [ vm_compute; reflexivity | ].
  split; [ vm_compute; reflexivity | ].
  by_execution.
  all: split; [ cbn; eexists; reflexivity | reflexivity ].
Qed.

(** ** The shared time grid *)

(** C9. In every run that plots the three trajectories the three are
    sampled on one grid: [time_range] was asked for N = 50 epochs from the
    launch to the arrival date, both lookups were made over the vector it
    returned, and the transfer orbit was propagated by the offsets of that
    same vector's epochs from the epoch of the departure orbit
    ([shared_epochs], whatever the libraries do).  Provided the libraries
    sample as [SamplingContract] says, [times_vector] has exactly 50
    epochs, the first the launch date and the last the arrival date; the
    Earth and the Mars positions have 50 entries each; the offsets are
    those of the same 50 epochs from the launch date, the first being the
    launch date minus itself; and the propagated trajectory has 50 entries
    ([shared_grid]). *)
Theorem trajectories_share_the_grid (L : Library) (w : World L) :
  List.length (plot_calls (trace (fst (run (notebook L) w)))) = 3%nat ->
  shared_epochs (trace (fst (run (notebook L) w)))
  /\ (SamplingContract L -> shared_grid (trace (fst (run (notebook L) w)))).
Proof.
  by_execution.
  all: cbn; intros H; try discriminate H; clear H.
  all: split.
  all: try (intros C; use_contract C;
            unfold shared_grid; do 9 eexists;
            repeat split; try eassumption;
            try match goal with
              | |- first_of (map ?f ?l) = _ =>
                  apply (first_of_map f l); assumption
              end;
            unfold N in *; rewrite ?length_map in *;
            simpl List.length in *; lia).
  all: unfold shared_epochs; do 12 eexists.
  all: repeat split.
  all: cbn [In]; repeat (first [ left; reflexivity | right ]).
Qed.

Lemma trajectories_share_the_grid_witness :
  (List.length
     (plot_calls (trace (fst (run (notebook stub_evenly_spaced) Stub.initial))))
   = 3%nat
   /\ SamplingContract stub_evenly_spaced)
  /\ shared_epochs (trace (fst (run (notebook stub_evenly_spaced) Stub.initial)))
  /\ shared_grid (trace (fst (run (notebook stub_evenly_spaced) Stub.initial))).
Proof.
  assert (H : List.length
                (plot_calls
                   (trace (fst (run (notebook stub_evenly_spaced)
                                  Stub.initial))))
              = 3%nat) by (vm_compute; reflexivity).
  split; [ split; [ exact H | exact evenly_spaced_samples ] | ].
  split.
  - exact (proj1 (trajectories_share_the_grid stub_evenly_spaced Stub.initial
                    H)).
  - exact (proj2 (trajectories_share_the_grid stub_evenly_spaced Stub.initial
                    H) evenly_spaced_samples).
Defined.

(** ** The arrival orbit *)

(** C10. [ssf_trans] is named on one line only, its assignment.  Provided
    [Orbit.from_vectors] builds its object without touching the interpreter
    state: in every run in which the construction of [ssf_trans] does not
    itself raise, the notebook without that assignment ends with the same
    outcome and the same interpreter state, and its trace is the trace of
    the notebook without the entry of that construction: every display and
    every plotted trajectory is the same. *)
Theorem ssf_trans_is_never_read (L : Library) (w : World L) :
  Document.lines_mentioning ["ssf_trans"]
  = [ "ssf_trans = Orbit.from_vectors(Sun, rf, vb, date_arrival)" ]
  /\ (constructs_purely L ->
      raised_at (11 @ 7) (trace (fst (run (notebook L) w))) = false ->
      snd (run (notebook_without_ssf_trans L) w) = snd (run (notebook L) w)
      /\ world (fst (run (notebook_without_ssf_trans L) w))
         = world (fst (run (notebook L) w))
      /\ trace (fst (run (notebook_without_ssf_trans L) w))
         = without_site (11 @ 7) (trace (fst (run (notebook L) w)))).
Proof.
  split; [ vm_compute; reflexivity | ].
  intros Hpure.
  execute (notebook L) w.
  all: intros H; try discriminate H; clear H.
  all: use_purity Hpure.
  all: execute_again (notebook_without_ssf_trans L) w.
  all: repeat split; reflexivity.
Qed.

Lemma ssf_trans_is_never_read_witness :
  (constructs_purely Stub.nominal
   /\ raised_at (11 @ 7)
        (trace (fst (run (notebook Stub.nominal) Stub.initial))) = false)
  /\ (snd (run (notebook_without_ssf_trans Stub.nominal) Stub.initial)
       = snd (run (notebook Stub.nominal) Stub.initial)
      /\ world (fst (run (notebook_without_ssf_trans Stub.nominal) Stub.initial))
         = world (fst (run (notebook Stub.nominal) Stub.initial))
      /\ trace (fst (run (notebook_without_ssf_trans Stub.nominal) Stub.initial))
         = without_site (11 @ 7)
             (trace (fst (run (notebook Stub.nominal) Stub.initial)))).
Proof.
  assert (Hp : constructs_purely Stub.nominal)
    by (intros a r v t w0; reflexivity).
  assert (Hr : raised_at (11 @ 7)
                 (trace (fst (run (notebook Stub.nominal) Stub.initial)))
               = false) by (vm_compute; reflexivity).
  split; [ split; assumption | ].
  exact (proj2 (ssf_trans_is_never_read Stub.nominal Stub.initial) Hp Hr).
Defined.

(** ** Further properties of the script *)

(** X1. If the Earth lookup returns no position (and the Mars lookup
    returns), the run ends in In [11] with the [IndexError] of [rr_earth[0]];
    if Earth has positions and Mars has none, it ends with the [IndexError]
    of [rr_mars[-1]].  Either way both lookups and their displays have been
    made, and the solver is never called. *)
Theorem empty_positions_end_in_index_error (L : Library) (w : World L)
    (n : nat) :
  (position_counts (trace (fst (run (notebook L) w)))
   = [ ("earth", Some 0%nat); ("mars", Some n) ] ->
   snd (run (notebook L) w)
   = Raised (IndexError "index 0 is out of bounds for axis 0 with size 0")
   /\ lambert_calls (trace (fst (run (notebook L) w))) = []
   /\ displaying_cells (trace (fst (run (notebook L) w)))
      = [ 2; 3; 4; 6; 7; 9; 10 ]%nat)
  /\ (position_counts (trace (fst (run (notebook L) w)))
      = [ ("earth", Some (S n)); ("mars", Some 0%nat) ] ->
      snd (run (notebook L) w)
      = Raised (IndexError "index -1 is out of bounds for axis 0 with size 0")
      /\ lambert_calls (trace (fst (run (notebook L) w))) = []
      /\ displaying_cells (trace (fst (run (notebook L) w)))
         = [ 2; 3; 4; 6; 7; 9; 10 ]%nat).
Proof.
  by_execution.
  all: split; cbn; intros H; try discriminate H.
  all: inversion H; subst.
  all: try match goal with
         | H0 : List.length ?l = 0%nat, E : rev ?l = _ :: _ |- _ =>
             apply length_zero_iff_nil in H0; subst; discriminate E
         end.
  all: repeat split; reflexivity.
Qed.

Lemma empty_positions_end_in_index_error_witness :
  (position_counts
     (trace (fst (run (notebook (stub_without "earth")) Stub.initial)))
   = [ ("earth", Some 0%nat); ("mars", Some 50%nat) ]
   /\ position_counts
        (trace (fst (run (notebook (stub_without "mars")) Stub.initial)))
      = [ ("earth", Some 50%nat); ("mars", Some 0%nat) ])
  /\ snd (run (notebook (stub_without "earth")) Stub.initial)
     = Raised (IndexError "index 0 is out of bounds for axis 0 with size 0")
  /\ snd (run (notebook (stub_without "mars")) Stub.initial)
     = Raised (IndexError "index -1 is out of bounds for axis 0 with size 0").
Proof.
  assert (He : position_counts
                 (trace (fst (run (notebook (stub_without "earth"))
                                Stub.initial)))
               = [ ("earth", Some 0%nat); ("mars", Some 50%nat) ])
    by (vm_compute; reflexivity).
  assert (Hm : position_counts
                 (trace (fst (run (notebook (stub_without "mars"))
                                Stub.initial)))
               = [ ("earth", Some 50%nat); ("mars", Some 0%nat) ])
    by (vm_compute; reflexivity).
  split; [ split; assumption | ].
  split.
  - exact (proj1 (proj1 (empty_positions_end_in_index_error
                           (stub_without "earth") Stub.initial 50) He)).
  - exact (proj1 (proj2 (empty_positions_end_in_index_error
                           (stub_without "mars") Stub.initial 49) Hm)).
Defined.

(** X2. Every exception that ends a run is either the exception of a
    library call, which is then the last entry of the trace and the only
    call that raised, or one of the four exceptions the statements of
    In [11] raise themselves (two indexings, one destructuring); in that
    case no call raised, the run stopped right after the display of In [10]
    or right after the solver call, and no orbit was constructed. *)
Theorem failures_are_classified (L : Library) (w : World L) (e : Exn) :
  snd (run (notebook L) w) = Raised e ->
  (raised_in (trace (fst (run (notebook L) w))) = [e]
   /\ exists s ev,
        last_of (trace (fst (run (notebook L) w))) = Some (s, ev)
        /\ ev_raised ev = Some e)
  \/ (raised_in (trace (fst (run (notebook L) w))) = []
      /\ In e own_exceptions
      /\ from_vectors_calls (trace (fst (run (notebook L) w))) = []
      /\ exists s ev,
           last_of (trace (fst (run (notebook L) w))) = Some (s, ev)
           /\ In s [ 10 @ 0; 11 @ 4 ]).
Proof.
  by_execution.
  all: intros H; try discriminate H; injection H as <-.
  all: first
         [ left; split; [ reflexivity | do 2 eexists; split; reflexivity ]
         | right; split; [ reflexivity | ];
           split; [ cbn; tauto | ];
           split; [ reflexivity | ];
           do 2 eexists; split; [ reflexivity | cbn; tauto ] ].
Qed.

Lemma failures_are_classified_witness :
  snd (run (notebook Stub.two_pairs) Stub.initial)
  = Raised (ValueError "too many values to unpack (expected 1)")
  /\ raised_in (trace (fst (run (notebook Stub.two_pairs) Stub.initial))) = []
  /\ snd (run (notebook Stub.offline) Stub.initial)
     = Raised (mkExn "URLError" "the ephemeris kernel cannot be fetched")
  /\ raised_in (trace (fst (run (notebook Stub.offline) Stub.initial)))
     = [ mkExn "URLError" "the ephemeris kernel cannot be fetched" ].
Proof.
  assert (H2 : snd (run (notebook Stub.two_pairs) Stub.initial)
               = Raised (ValueError "too many values to unpack (expected 1)"))
    by (vm_compute; reflexivity).
  assert (Ho : snd (run (notebook Stub.offline) Stub.initial)
               = Raised (mkExn "URLError"
                           "the ephemeris kernel cannot be fetched"))
    by (vm_compute; reflexivity).
  split; [ exact H2 | ].
  split.
  - destruct (failures_are_classified Stub.two_pairs Stub.initial _ H2)
      as [[Hr _] | [Hr _]]; [ vm_compute in Hr; discriminate Hr | exact Hr ].
  - split; [ exact Ho | ].
    destruct (failures_are_classified Stub.offline Stub.initial _ Ho)
      as [[Hr _] | [Hr _]]; [ exact Hr | vm_compute in Hr; discriminate Hr ].
Defined.

(** X3. A run ends without an exception exactly when its trace goes through
    the whole outline of the script, all 43 calls and displays. *)
Theorem completed_iff_whole_outline (L : Library) (w : World L) :
  snd (run (notebook L) w) = Returned tt
  <-> outline (trace (fst (run (notebook L) w))) = script.
Proof.
  by_execution.
  all: split; intros H; try discriminate H; try reflexivity.
  all: try (apply (f_equal (@List.length _)) in H; vm_compute in H;
            discriminate H).
  all: match goal with u : unit |- _ => destruct u end; reflexivity.
Qed.

Lemma completed_iff_whole_outline_witness :
  snd (run (notebook Stub.nominal) Stub.initial) = Returned tt
  /\ outline (trace (fst (run (notebook Stub.nominal) Stub.initial))) = script.
Proof.
  assert (H : snd (run (notebook Stub.nominal) Stub.initial) = Returned tt)
    by (vm_compute; reflexivity).
  split; [ exact H | ].
  exact (proj1 (completed_iff_whole_outline Stub.nominal Stub.initial) H).
Defined.

(** X4. Whenever In [13] displays a figure, it is the one figure the cell
    created: the plotter was built on it, the Sun was set as attractor
    before anything was plotted, the three trajectories (Earth, Mars, MSL)
    went to that one plotter with their labels and colours, the view was set
    after the last of them, and the title was set on that same figure. *)
Theorem one_figure_one_plotter (L : Library) (w : World L) (f : Figure L) :
  In f (shown_figures (trace (fst (run (notebook L) w)))) ->
  shown_figures (trace (fst (run (notebook L) w))) = [f]
  /\ exists frame t1 t2 t3 u0 u1 u2 u3 u4 u5,
       figure_events (trace (fst (run (notebook L) w)))
       = [ EFigureWidget L (Returned f);
           EOrbitPlotter3D L f (Returned frame);
           ESetAttractor L frame (Sun L) (Returned u0);
           EPlotTrajectory L frame t1 (inl (Earth L)) "#3d4cd5" (Returned u1);
           EPlotTrajectory L frame t2 (inl (Mars L)) "#ec1f28" (Returned u2);
           EPlotTrajectory L frame t3 (inr "MSL trajectory") "#444444"
             (Returned u3);
           ESetView L frame (30%Z, u_deg) (260%Z, u_deg) (3%Z, u_km)
             (Returned u4);
           ESetTitle L f "MSL Mission: from Earth to Mars" (Returned u5) ].
Proof.
  by_execution.
  all: cbn; intros H; try contradiction.
  all: destruct H as [<- | []].
  all: split; [ reflexivity | do 10 eexists; reflexivity ].
Qed.

Lemma one_figure_one_plotter_witness :
  In tt (shown_figures (trace (fst (run (notebook Stub.nominal) Stub.initial))))
  /\ shown_figures (trace (fst (run (notebook Stub.nominal) Stub.initial)))
     = [tt].
Proof.
  assert (H : In tt (shown_figures
                       (trace (fst (run (notebook Stub.nominal)
                                      Stub.initial)))))
    by (vm_compute; left; reflexivity).
  split; [ exact H | ].
  exact (proj1 (one_figure_one_plotter Stub.nominal Stub.initial tt H)).
Defined.



(** X6. The cells that display a value are the code cells that hold a
    recorded output in the file: every run displays in an initial part of
    In [2], [3], [4], [6], [7], [9], [10], [13], [15], and a run that ends
    without an exception displays in all of them, once each. *)
Theorem displays_match_recorded_outputs (L : Library) (w : World L) :
  (exists rest,
      displaying_cells (trace (fst (run (notebook L) w))) ++ rest
      = cells_with_output)
  /\ (snd (run (notebook L) w) = Returned tt ->
      displaying_cells (trace (fst (run (notebook L) w))) = cells_with_output).
Proof.
  rewrite cells_with_output_are.
  by_execution.
  all: split; [ cbn; eexists; reflexivity | ].
  all: intros H; try discriminate H; reflexivity.
Qed.

Lemma displays_match_recorded_outputs_witness :
  snd (run (notebook Stub.nominal) Stub.initial) = Returned tt
  /\ displaying_cells (trace (fst (run (notebook Stub.nominal) Stub.initial)))
     = cells_with_output.
Proof.
  assert (H : snd (run (notebook Stub.nominal) Stub.initial) = Returned tt)
    by (vm_compute; reflexivity).
  split; [ exact H | ].
  exact (proj2 (displays_match_recorded_outputs Stub.nominal Stub.initial) H).
Defined.

(** X7. Whenever the propagator is called, the orbit it receives is the one
    [Orbit.from_vectors] returned for the launch date on line 6 of In [11]
    (the departure orbit), and the offsets it receives are what
    [time.TimeDelta] returned for the epochs of [times_vector] minus that
    orbit's epoch, one offset per epoch; if the propagator returns, its
    positions are what the third [plot_trajectory] is called with. *)
Theorem propagation_wiring (L : Library) (w : World L) :
  propagate_calls (trace (fst (run (notebook L) w))) <> [] ->
  exists o dts res r0 va date_launch date_arrival times_vector,
    propagate_calls (trace (fst (run (notebook L) w))) = [ (o, dts, res) ]
    /\ In (11 @ 6, EFromVectors L (Sun L) r0 va date_launch (Returned o))
          (trace (fst (run (notebook L) w)))
    /\ time_range_calls (trace (fst (run (notebook L) w)))
       = [ (date_launch, date_arrival, 50%Z, Returned times_vector) ]
    /\ timedelta_calls (trace (fst (run (notebook L) w)))
       = [ (map (fun t => time_sub L t (orbit_epoch L o)) times_vector,
            Returned dts) ]
    /\ forall traj,
         res = Returned traj ->
         exists r,
           In (traj, inr "MSL trajectory", "#444444", r)
              (plot_calls (trace (fst (run (notebook L) w)))).
Proof.
  by_execution.
  all: unfold propagate_calls, time_range_calls, timedelta_calls, plot_calls;
    cbn [pick_all flat_map app snd In].
  all: intros H; try congruence; clear H.
  all: do 8 eexists.
  all: split; [ reflexivity | ].
  all: split; [ cbn [In]; repeat (first [ left; reflexivity | right ]) | ].
  all: split; [ reflexivity | ].
  all: split; [ reflexivity | ].
  all: intros traj Ht; try discriminate Ht; inversion Ht; subst.
  all: eexists; do 2 right; left; reflexivity.
Qed.

Lemma propagation_wiring_witness :
  propagate_calls (trace (fst (run (notebook Stub.nominal) Stub.initial)))
  <> []
  /\ exists o dts res,
       propagate_calls (trace (fst (run (notebook Stub.nominal) Stub.initial)))
       = [ (o, dts, res) ].
Proof.
  assert (H : propagate_calls
                (trace (fst (run (notebook Stub.nominal) Stub.initial)))
              <> []) by (vm_compute; discriminate).
  split; [ exact H | ].
  destruct (propagation_wiring Stub.nominal Stub.initial H)
    as [o [dts [res [_ [_ [_ [_ [_ [Hp _]]]]]]]]].
  exists o, dts, res. exact Hp.
Defined.

(** X8. Names bound and never used.  [np] and the colours [color_earthf],
    [color_mars0], [color_sun] and [color_orbit] occur on the line that
    binds them and on no other executable line; no line that names the
    ephemeris velocities hands them to the solver, an orbit, the propagator
    or the plotter; and in every run the colours of the [plot_trajectory]
    calls are an initial part of [color_earth0], [color_marsf],
    [color_trans], none of which is one of the four. *)
Theorem unused_names_stay_unused (L : Library) (w : World L) :
  List.length (Document.lines_mentioning ["np"]) = 1%nat
  /\ map (fun n => List.length (Document.lines_mentioning [n]))
       [ "color_earthf"; "color_mars0"; "color_sun"; "color_orbit" ]
     = [ 1; 1; 1; 1 ]%nat
  /\ forallb
       (fun l =>
          negb (existsb (fun n => Nat.ltb 0 (Document.occurrences n l))
                  [ "lambert"; "from_vectors"; "propagate"; "plot_trajectory" ]))
       (Document.lines_mentioning ["vv_earth"; "vv_mars"])
     = true
  /\ (exists rest,
        map (fun c => snd (fst c))
          (plot_calls (trace (fst (run (notebook L) w)))) ++ rest
        = [ color_earth0; color_marsf; color_trans ])
  /\ forallb (fun c => negb (existsb (String.eqb c) unused_colors))
       [ color_earth0; color_marsf; color_trans ]
     = true.
Proof.
  split; [ vm_compute; reflexivity | ].
  split; [ vm_compute; reflexivity | ].
  split; [ vm_compute; reflexivity | ].
  split; [ | vm_compute; reflexivity ].
  by_execution.
  all: cbn; eexists; reflexivity.
Qed.

(** X9. The five epochs recorded in Out [4] are the launch date plus
    i/(N - 1) of the elapsed time between the two dates of In [3], for
    i = 0..4, rounded to the millisecond: the recorded output is what N
    evenly spaced epochs from launch to arrival give.  The elapsed time
    includes the leap second of 2012-06-30: without it the second epoch
    would not round to the recorded one. *)
Theorem recorded_epochs_are_evenly_spaced :
  exists tof o0 o1 o2 o3 o4,
    Calendar.elapsed_seconds "2011-11-26 15:02" "2012-08-06 05:17" = Some tof
    /\ Recorded.offsets_ms "2011-11-26 15:02"
       = [ Some o0; Some o1; Some o2; Some o3; Some o4 ]
    /\ Calendar.rounds_to (0 * (tof * 1000)) (N - 1) 0 o0
    /\ Calendar.rounds_to (1 * (tof * 1000)) (N - 1) 0 o1
    /\ Calendar.rounds_to (2 * (tof * 1000)) (N - 1) 0 o2
    /\ Calendar.rounds_to (3 * (tof * 1000)) (N - 1) 0 o3
    /\ Calendar.rounds_to (4 * (tof * 1000)) (N - 1) 0 o4
    /\ ~ Calendar.rounds_to (1 * ((tof - 1) * 1000)) (N - 1) 0 o1.
Proof.
  exists 21910501%Z, 0%Z, 447153082%Z, 894306163%Z, 1341459245%Z,
    1788612327%Z.
  split; [ vm_compute; reflexivity | ].
  split; [ vm_compute; reflexivity | ].
  unfold Calendar.rounds_to.
  repeat split; vm_compute; intros H; try discriminate H.
  apply H. reflexivity.
Qed.

(** X10. The quantity displayed by In [3] is the result of converting to
    hours the very time of flight, [date_arrival - date_launch], that In [11]
    hands to the solver. *)
Theorem displayed_tof_is_the_solver_tof (L : Library) (w : World L)
    (q : Quantity L) :
  In q (shown_quantities (trace (fst (run (notebook L) w)))) ->
  exists date_launch date_arrival,
    time_calls (trace (fst (run (notebook L) w)))
    = [ ("2011-11-26 15:02", "utc", Returned date_launch);
        ("2012-08-06 05:17", "utc", Returned date_arrival) ]
    /\ to_calls (trace (fst (run (notebook L) w)))
       = [ (time_sub L date_arrival date_launch, u_h, Returned q) ]
    /\ forall c,
         In c (lambert_calls (trace (fst (run (notebook L) w)))) ->
         snd (fst c) = time_sub L date_arrival date_launch.
Proof.
  by_execution.
  all: unfold shown_quantities, time_calls, to_calls, lambert_calls;
    cbn [pick_all flat_map app snd In].
  all: intros H.
  all: repeat match goal with
         | H0 : _ \/ _ |- _ => destruct H0
         | H0 : False |- _ => contradiction H0
         end.
  all: subst q.
  all: do 2 eexists; split; [ reflexivity | split; [ reflexivity | ] ].
  all: intros c Hc; cbn [In] in Hc.
  all: repeat match goal with
         | H0 : _ \/ _ |- _ => destruct H0
         | H0 : False |- _ => contradiction H0
         end.
  all: subst c; reflexivity.
Qed.

Lemma displayed_tof_is_the_solver_tof_witness :
  In stub_hours
     (shown_quantities
        (trace (fst (run (notebook Stub.nominal) Stub.initial))))
  /\ exists date_launch date_arrival,
       to_calls (trace (fst (run (notebook Stub.nominal) Stub.initial)))
       = [ (time_sub Stub.nominal date_arrival date_launch, u_h,
            Returned stub_hours) ].
Proof.
  assert (Hin : In stub_hours
                  (shown_quantities
                     (trace (fst (run (notebook Stub.nominal) Stub.initial)))))
    by (vm_compute; left; reflexivity).
  split; [ exact Hin | ].
  destruct (displayed_tof_is_the_solver_tof Stub.nominal Stub.initial _ Hin)
    as [tl [ta [_ [Hto _]]]].
  exists tl, ta. exact Hto.
Defined.
